(** * Voice Inbox Server: a shallow embedding of [src/index.ts]

    The server is a single TypeScript module: four formatting functions
    ([generateTimestamp], [generateFilename], [generateFrontmatter],
    [generateNoteContent]), the convert operation [handleConvert], the
    dispatcher [handler] and the start-up constant [PORT].

    The embedding keeps the data of the program as the program has it:
    strings are sequences of UTF-16 code units, parsed request bodies are
    JSON values, a [Date] is a time value in milliseconds, and the two effects
    of the module (reading the system clock with [new Date()] and throwing)
    are a small state-and-exception monad. *)

From Stdlib Require Import ZArith NArith List String Ascii Bool Lia SpecFloat.
Import ListNotations.

Local Open Scope Z_scope.

(** ** Strings *)

Module JsString.

(** A JavaScript string is a sequence of UTF-16 code units. *)
Definition code_unit := N.
Definition js_string := list code_unit.

(** An ASCII literal of the source text. *)
Definition lit (s : string) : js_string :=
  map N_of_ascii (list_ascii_of_string s).

Definition dquote : js_string := [34%N].
Definition newline : js_string := [10%N].
(** U+1F3A4 (studio microphone) is the surrogate pair D83C DFA4. *)
Definition microphone : js_string := [55356%N; 57252%N].

Fixpoint eqb (a b : js_string) : bool :=
  match a, b with
  | [], [] => true
  | x :: a', y :: b' => N.eqb x y && eqb a' b'
  | _, _ => false
  end.

(** WhiteSpace and LineTerminator code points of ECMAScript, the ones
    [String.prototype.trim] strips. *)
Definition isWhiteSpace (c : code_unit) : bool :=
  existsb (N.eqb c)
    [9; 10; 11; 12; 13; 32; 160; 5760;
     8192; 8193; 8194; 8195; 8196; 8197; 8198; 8199; 8200; 8201; 8202;
     8232; 8233; 8239; 8287; 12288; 65279]%N.

Fixpoint trimStart (s : js_string) : js_string :=
  match s with
  | [] => []
  | c :: s' => if isWhiteSpace c then trimStart s' else s
  end.

Definition trimEnd (s : js_string) : js_string := rev (trimStart (rev s)).

(** [s.trim()] *)
Definition trim (s : js_string) : js_string := trimEnd (trimStart s).

Fixpoint startsWith (p s : js_string) : bool :=
  match p, s with
  | [], _ => true
  | x :: p', y :: s' => N.eqb x y && startsWith p' s'
  | _ :: _, [] => false
  end.

(** [hay.includes(needle)] *)
Fixpoint includes (needle hay : js_string) : bool :=
  startsWith needle hay ||
  match hay with
  | [] => false
  | _ :: hay' => includes needle hay'
  end.

(** [s.padStart(target, fill)] for a one-unit [fill]. *)
Definition padStart (target : nat) (fill : code_unit) (s : js_string)
  : js_string :=
  repeat fill (target - List.length s) ++ s.

(** [s.split(sep)[0]] for a one-unit separator: the part of [s] before the
    first [sep], all of [s] when there is none. *)
Fixpoint split_head (sep : code_unit) (s : js_string) : js_string :=
  match s with
  | [] => []
  | c :: s' => if N.eqb c sep then [] else c :: split_head sep s'
  end.

Definition digit (d : Z) : code_unit := (48 + Z.to_N d)%N.

Definition isDigit (c : code_unit) : bool :=
  (N.leb 48 c && N.leb c 57)%bool.

Fixpoint decimal (fuel : nat) (n : Z) : js_string :=
  match fuel with
  | O => []
  | S fuel' =>
      (if n <? 10 then [] else decimal fuel' (n / 10)) ++ [digit (n mod 10)]
  end.

(** [String(n)] for an integral number [n] below 10^21 in magnitude (above
    that the engine switches to exponent notation): the decimal digits,
    with a minus sign for a negative number. *)
Definition String_of_int (n : Z) : js_string :=
  if n <? 0 then lit "-" ++ decimal 21 (- n) else decimal 21 n.

End JsString.
Import JsString.

(** ** Dates

    The time arithmetic of ECMAScript (Day, TimeWithinDay, YearFromTime,
    MonthFromTime, DateFromTime, HourFromTime, ...) on a time value, the
    number of milliseconds since 1970-01-01T00:00:00Z. *)

Module JsDate.

Definition msPerDay : Z := 86400000.
Definition msPerHour : Z := 3600000.
Definition msPerMinute : Z := 60000.
Definition msPerSecond : Z := 1000.

Definition Day (t : Z) : Z := t / msPerDay.
Definition TimeWithinDay (t : Z) : Z := t mod msPerDay.

(** The proleptic Gregorian date of a day number, by eras of 400 years
    counted from 0000-03-01. *)
Definition day_of_era (day : Z) : Z := (day + 719468) mod 146097.
Definition era (day : Z) : Z := (day + 719468) / 146097.
Definition year_of_era (doe : Z) : Z :=
  (doe - doe / 1460 + doe / 36524 - doe / 146096) / 365.
Definition day_of_year (doe : Z) : Z :=
  let yoe := year_of_era doe in
  doe - (365 * yoe + yoe / 4 - yoe / 100).
(** Month counted from March: 0 is March, 11 is February. *)
Definition month_from_march (doy : Z) : Z := (5 * doy + 2) / 153.

(** 0 is January, as [getMonth] and [getUTCMonth] count. *)
Definition MonthFromTime (t : Z) : Z :=
  let mp := month_from_march (day_of_year (day_of_era (Day t))) in
  if mp <? 10 then mp + 2 else mp - 10.

Definition DateFromTime (t : Z) : Z :=
  let doy := day_of_year (day_of_era (Day t)) in
  doy - (153 * month_from_march doy + 2) / 5 + 1.

Definition YearFromTime (t : Z) : Z :=
  let d := Day t in
  year_of_era (day_of_era d) + era d * 400
  + (if MonthFromTime t <? 2 then 1 else 0).

Definition HourFromTime (t : Z) : Z := (t / msPerHour) mod 24.
Definition MinFromTime (t : Z) : Z := (t / msPerMinute) mod 60.
Definition SecFromTime (t : Z) : Z := (t / msPerSecond) mod 60.
Definition msFromTime (t : Z) : Z := t mod msPerSecond.

(** A [Date] object: its time value, and the offset of local time from UTC
    that the host applies at that time value (LocalTZA, in ms). *)
Record Date := { time_value : Z; local_tza : Z }.

Definition LocalTime (d : Date) : Z := time_value d + local_tza d.

Definition getFullYear (d : Date) : Z := YearFromTime (LocalTime d).
Definition getMonth (d : Date) : Z := MonthFromTime (LocalTime d).
Definition getDate (d : Date) : Z := DateFromTime (LocalTime d).
Definition getHours (d : Date) : Z := HourFromTime (LocalTime d).
Definition getMinutes (d : Date) : Z := MinFromTime (LocalTime d).

Definition pad (width : nat) (n : Z) : js_string :=
  padStart width 48%N (String_of_int n).

(** The year of the ISO format: four digits from 0 to 9999, otherwise a
    sign and six digits. *)
Definition iso_year (y : Z) : js_string :=
  if (0 <=? y) && (y <=? 9999) then pad 4 y
  else (if y <? 0 then lit "-" else lit "+") ++ pad 6 (Z.abs y).

(** The calendar date [YYYY-MM-DD] of a time value, in UTC. *)
Definition iso_date (t : Z) : js_string :=
  iso_year (YearFromTime t) ++ lit "-" ++ pad 2 (MonthFromTime t + 1)
  ++ lit "-" ++ pad 2 (DateFromTime t).

(** [d.toISOString()] *)
Definition toISOString (d : Date) : js_string :=
  let t := time_value d in
  iso_date t ++ lit "T" ++ pad 2 (HourFromTime t) ++ lit ":"
  ++ pad 2 (MinFromTime t) ++ lit ":" ++ pad 2 (SecFromTime t) ++ lit "."
  ++ pad 3 (msFromTime t) ++ lit "Z".

End JsDate.
Import JsDate.

(** ** JSON values, as [request.json()] yields them *)

#[warnings="-register-all"]
Inductive JsValue :=
| JNull
| JBool (b : bool)
| JNumber (x : spec_float)
| JString (s : js_string)
| JArray (elements : list JsValue)
| JObject (properties : list (js_string * JsValue)).

(** Induction on a value through the elements of its arrays. *)
Section JsValue_nested_ind.

Variable P : JsValue -> Prop.
Hypothesis Hnull : P JNull.
Hypothesis Hbool : forall b, P (JBool b).
Hypothesis Hnumber : forall x, P (JNumber x).
Hypothesis Hstring : forall s, P (JString s).
Hypothesis Harray : forall l, Forall P l -> P (JArray l).
Hypothesis Hobject : forall properties, P (JObject properties).

Fixpoint JsValue_nested_ind (v : JsValue) : P v :=
  match v with
  | JNull => Hnull
  | JBool b => Hbool b
  | JNumber x => Hnumber x
  | JString s => Hstring s
  | JArray l =>
      Harray l
        ((fix go (l : list JsValue) : Forall P l :=
            match l with
            | [] => Forall_nil P
            | x :: r => Forall_cons x (JsValue_nested_ind x) (go r)
            end) l)
  | JObject properties => Hobject properties
  end.

End JsValue_nested_ind.

(** The Number value of an integer. *)
Definition number (z : Z) : spec_float := binary_normalize 53 1024 z 0 false.

(** The own property [key] of a parsed object, whose members are listed one
    per key ([JSON.parse] keeps the last of duplicated keys). *)
Fixpoint own_property (properties : list (js_string * JsValue))
  (key : js_string) : option JsValue :=
  match properties with
  | [] => None
  | (k, v) :: rest => if eqb k key then Some v else own_property rest key
  end.

Definition has_own_property (properties : list (js_string * JsValue))
  (key : js_string) : bool :=
  match own_property properties key with Some _ => true | None => false end.

(** ToBoolean, the test of [!v] and [v || d]. *)
Definition ToBoolean (v : option JsValue) : bool :=
  match v with
  | None => false
  | Some JNull => false
  | Some (JBool b) => b
  | Some (JNumber x) =>
      match x with
      | S754_zero _ | S754_nan => false
      | _ => true
      end
  | Some (JString s) => negb (eqb s [])
  | Some (JArray _) | Some (JObject _) => true
  end.

(** [typeof v === 'string'] *)
Definition is_string (v : option JsValue) : bool :=
  match v with
  | Some (JString _) => true
  | _ => false
  end.

(** [v || d] *)
Definition or_else (v : option JsValue) (d : JsValue) : JsValue :=
  match v with
  | Some x => if ToBoolean v then x else d
  | None => d
  end.

(** What a [throw] carries: an [Error] with its message, or any other value. *)
Inductive Thrown :=
| ErrorObject (message : js_string)
| OtherValue.

Inductive Completion (A : Type) :=
| Normal (a : A)
| Throw (e : Thrown).
Arguments Normal {A} a.
Arguments Throw {A} e.

(** The [TypeError]s the module can provoke; their messages are the
    engine's. *)
Inductive TypeErrorKind :=
| PropertyOfNull (key : js_string)
| NotAFunction (key : js_string)
| CannotConvertToPrimitive.

(** What the process gets from its host: the system clock (the n-th reading,
    in ms since the epoch), the local time zone, and the engine's renderings
    of numbers and of [TypeError] messages. *)
Record Host := {
  clock : nat -> Z;
  LocalTZA : Z -> Z;
  Number_toString : spec_float -> js_string;
  TypeError_message : TypeErrorKind -> js_string
}.

(** ** The effects of the module: clock readings and exceptions

    The state is the number of readings taken from the clock so far. *)

Definition M (A : Type) : Type := nat -> Completion A * nat.

Definition ret {A} (a : A) : M A := fun n => (Normal a, n).

Definition bind {A B} (m : M A) (k : A -> M B) : M B :=
  fun n =>
    match m n with
    | (Normal a, n') => k a n'
    | (Throw e, n') => (Throw e, n')
    end.

Definition lift {A} (c : Completion A) : M A := fun n => (c, n).

(** [try { body } catch (error) { handler }] *)
Definition try_catch {A} (body : M A) (handler : Thrown -> M A) : M A :=
  fun n =>
    match body n with
    | (Normal a, n') => (Normal a, n')
    | (Throw e, n') => handler e n'
    end.

Declare Scope js_scope.
Delimit Scope js_scope with js.
Notation "x <- m ;; k" := (bind m (fun x => k))
  (at level 61, m at next level, right associativity) : js_scope.

Section Runtime.

Variable host : Host.

Definition TypeError {A} (kind : TypeErrorKind) : Completion A :=
  Throw (ErrorObject (TypeError_message host kind)).

(** The [Date] of the n-th reading of the clock. *)
Definition date_at (n : nat) : Date :=
  let t := clock host n in
  {| time_value := t; local_tza := LocalTZA host t |}.

(** [new Date()] *)
Definition new_Date : M Date := fun n => (Normal (date_at n), S n).

(** [value.key] on a value parsed from JSON; [None] is [undefined].
    Reading a property of [null] throws; a primitive, an array or an
    object without the key has no such property (nothing in the module
    extends the built-in prototypes, and neither [text] nor [source] is a
    property of them). *)
Definition Get (value : JsValue) (key : js_string)
  : Completion (option JsValue) :=
  match value with
  | JNull => TypeError (PropertyOfNull key)
  | JObject properties => Normal (own_property properties key)
  | _ => Normal None
  end.

(** ToString, as a template literal applies it to [${v}].  An object goes
    through OrdinaryToPrimitive with hint string: [toString] then
    [valueOf], each called only when callable.  A property parsed from
    JSON is never callable and shadows the inherited method, so an object
    with an own [toString] is left with [Object.prototype.valueOf], which
    returns the object itself, and the conversion throws; any other object
    is rendered by [Object.prototype.toString].  An array is rendered by
    [Array.prototype.join], where [null] elements are empty. *)
Fixpoint ToString (v : JsValue) : Completion js_string :=
  match v with
  | JNull => Normal (lit "null")
  | JBool true => Normal (lit "true")
  | JBool false => Normal (lit "false")
  | JNumber x => Normal (Number_toString host x)
  | JString s => Normal s
  | JArray elements =>
      (fix join (l : list JsValue) : Completion js_string :=
         match l with
         | [] => Normal []
         | x :: rest =>
             match (match x with JNull => Normal [] | _ => ToString x end)
             with
             | Throw e => Throw e
             | Normal s =>
                 match rest with
                 | [] => Normal s
                 | _ :: _ =>
                     match join rest with
                     | Throw e => Throw e
                     | Normal r => Normal (s ++ lit "," ++ r)
                     end
                 end
             end
         end) elements
  | JObject properties =>
      if has_own_property properties (lit "toString")
      then TypeError CannotConvertToPrimitive
      else Normal (lit "[object Object]")
  end.

(** [v.trim()] after the [typeof] test has passed: [v] is a string there;
    on anything else the call would throw. *)
Definition call_trim (v : option JsValue) : Completion js_string :=
  match v with
  | Some (JString s) => Normal (trim s)
  | None | Some JNull => TypeError (PropertyOfNull (lit "trim"))
  | Some _ => TypeError (NotAFunction (lit "trim"))
  end.

Local Open Scope js_scope.

(** ** The module *)

Definition generateTimestamp : M js_string :=
  now <- new_Date ;;
  let year := getFullYear now in
  let month := padStart 2 48%N (String_of_int (getMonth now + 1)) in
  let day := padStart 2 48%N (String_of_int (getDate now)) in
  let hours := getHours now in
  let minutes := padStart 2 48%N (String_of_int (getMinutes now)) in
  let ampm := if 12 <=? hours then lit "pm" else lit "am" in
  let hours := Z.rem hours 12 in
  let hours := if hours =? 0 then 12 else hours in
  ret (String_of_int year ++ lit "-" ++ month ++ lit "-" ++ day ++ lit " "
       ++ String_of_int hours ++ lit "-" ++ minutes ++ ampm).

Definition generateFilename : M js_string :=
  timestamp <- generateTimestamp ;;
  ret (microphone ++ lit " " ++ timestamp).

Definition generateFrontmatter (source : JsValue) : M js_string :=
  now <- new_Date ;;
  let today := split_head 84%N (toISOString now) in
  source <- lift (ToString source) ;;
  ret (lit "---" ++ newline
       ++ lit "type: transcription" ++ newline
       ++ lit "created: " ++ today ++ newline
       ++ lit "source: " ++ source ++ newline
       ++ lit "template_version: 1" ++ newline
       ++ lit "areas: []" ++ newline
       ++ lit "projects: []" ++ newline
       ++ lit "summary: " ++ dquote ++ dquote ++ newline
       ++ lit "---").

Definition generateNoteContent (text : js_string) (source : JsValue)
  : M js_string :=
  frontmatter <- generateFrontmatter source ;;
  ret (frontmatter ++ newline ++ newline ++ text ++ newline).

(** [ConvertResponse | ErrorResponse] *)
Inductive ConvertResult :=
| ConvertResponse (noteContent filename : js_string)
| ErrorResponse (error : js_string).

Definition success (r : ConvertResult) : bool :=
  match r with
  | ConvertResponse _ _ => true
  | ErrorResponse _ => false
  end.

(** A request, as the module reads it: [request.method], the [pathname] of
    [new URL(request.url)], and the outcome of [await request.json()]. *)
Record Request := {
  method : js_string;
  pathname : js_string;
  json : Completion JsValue
}.

Definition missing_text : js_string :=
  lit "Missing or invalid " ++ dquote ++ lit "text" ++ dquote ++ lit " field".

Definition handleConvert (request : Request) : M ConvertResult :=
  try_catch
    (body <- lift (json request) ;;
     body_text <- lift (Get body (lit "text")) ;;
     if negb (ToBoolean body_text) || negb (is_string body_text) then
       ret (ErrorResponse missing_text)
     else
       text <- lift (call_trim body_text) ;;
       if (List.length text =? 0)%nat then
         ret (ErrorResponse (lit "Text cannot be empty"))
       else
         body_source <- lift (Get body (lit "source")) ;;
         let source := or_else body_source (JString (lit "superwhisper")) in
         noteContent <- generateNoteContent text source ;;
         filename <- generateFilename ;;
         ret (ConvertResponse noteContent filename))
    (fun error =>
       ret (ErrorResponse
              match error with
              | ErrorObject message => message
              | OtherValue => lit "Failed to parse request"
              end)).

(** The body of a [Response]: [null], or the text [JSON.stringify(v)]. *)
Inductive Body :=
| NoBody
| JsonText (v : JsValue).

Record Response := {
  status : Z;
  headers : list (js_string * js_string);
  body : Body
}.

(** The object literal a [ConvertResult] is in the source. *)
Definition result_object (r : ConvertResult) : JsValue :=
  match r with
  | ConvertResponse noteContent filename =>
      JObject [(lit "success", JBool true);
               (lit "noteContent", JString noteContent);
               (lit "filename", JString filename)]
  | ErrorResponse error =>
      JObject [(lit "success", JBool false); (lit "error", JString error)]
  end.

Definition corsHeaders : list (js_string * js_string) :=
  [(lit "Access-Control-Allow-Origin", lit "*");
   (lit "Access-Control-Allow-Methods", lit "GET, POST, OPTIONS");
   (lit "Access-Control-Allow-Headers", lit "Content-Type")].

Definition handler (request : Request) : M Response :=
  let pathname := pathname request in
  let method := method request in
  if eqb method (lit "OPTIONS") then
    ret {| status := 204; headers := corsHeaders; body := NoBody |}
  else if eqb pathname (lit "/") && eqb method (lit "GET") then
    now <- new_Date ;;
    ret {| status := 200;
           headers := (lit "Content-Type", lit "application/json")
                      :: corsHeaders;
           body := JsonText
                     (JObject
                        [(lit "status", JString (lit "ok"));
                         (lit "service", JString (lit "voice-inbox-server"));
                         (lit "timestamp", JString (toISOString now))]) |}
  else if eqb pathname (lit "/convert") && eqb method (lit "POST") then
    result <- handleConvert request ;;
    let status := if success result then 200 else 400 in
    ret {| status := status;
           headers := (lit "Content-Type", lit "application/json")
                      :: corsHeaders;
           body := JsonText (result_object result) |}
  else
    ret {| status := 404;
           headers := (lit "Content-Type", lit "application/json")
                      :: corsHeaders;
           body := JsonText
                     (JObject [(lit "success", JBool false);
                               (lit "error", JString (lit "Not found"))]) |}.

End Runtime.

(** [const PORT = process.env.PORT || 3000], from the value of the
    environment variable, [None] when it is unset. *)
Definition PORT (env_PORT : option js_string) : JsValue :=
  or_else (option_map JString env_PORT) (JNumber (number 3000)).

(** ** Vocabulary of the statements *)

(** The property [key] of a parsed body that is not [null]. *)
Definition field (body : JsValue) (key : js_string) : option JsValue :=
  match body with
  | JObject properties => own_property properties key
  | _ => None
  end.

(** [k] decimal digits. *)
Definition digits (k : nat) (s : js_string) : Prop :=
  List.length s = k /\ forallb isDigit s = true.

(** The frontmatter block, key by key. *)
Definition frontmatter_block (created source : js_string) : js_string :=
  lit "---" ++ newline
  ++ lit "type: transcription" ++ newline
  ++ lit "created: " ++ created ++ newline
  ++ lit "source: " ++ source ++ newline
  ++ lit "template_version: 1" ++ newline
  ++ lit "areas: []" ++ newline
  ++ lit "projects: []" ++ newline
  ++ lit "summary: " ++ dquote ++ dquote ++ newline
  ++ lit "---".

(** The local calendar date and the local 12-hour time of a [Date], as the
    file name writes them. *)
Definition local_date (d : Date) : js_string :=
  String_of_int (getFullYear d) ++ lit "-" ++ pad 2 (getMonth d + 1)
  ++ lit "-" ++ pad 2 (getDate d).

Definition hour12 (d : Date) : Z :=
  if Z.rem (getHours d) 12 =? 0 then 12 else Z.rem (getHours d) 12.

Definition meridiem (d : Date) : js_string :=
  if 12 <=? getHours d then lit "pm" else lit "am".

Definition filename_at (d : Date) : js_string :=
  microphone ++ lit " " ++ local_date d ++ lit " "
  ++ String_of_int (hour12 d) ++ lit "-" ++ pad 2 (getMinutes d)
  ++ meridiem d.

(** The file name pattern: the marker, a space, a date of four, two and two
    digits, a space, an hour from 1 to 12 without a leading zero, a hyphen,
    two digits of minutes, and [am] or [pm]. *)
Definition filename_pattern (f : js_string) : Prop :=
  exists year month day hour minute ampm,
    f = microphone ++ lit " " ++ year ++ lit "-" ++ month ++ lit "-" ++ day
        ++ lit " " ++ hour ++ lit "-" ++ minute ++ ampm
    /\ digits 4 year /\ digits 2 month /\ digits 2 day
    /\ In hour (map lit ["1"; "2"; "3"; "4"; "5"; "6"; "7"; "8"; "9"; "10";
                         "11"; "12"]%string)
    /\ digits 2 minute
    /\ (ampm = lit "am" \/ ampm = lit "pm").

(** [headers.get(name)] on the header list of a response. *)
Fixpoint get_header (headers : list (js_string * js_string))
  (name : js_string) : option js_string :=
  match headers with
  | [] => None
  | (k, v) :: rest => if eqb k name then Some v else get_header rest name
  end.

Definition default_source : JsValue := JString (lit "superwhisper").

(** An engine whose [TypeError] for a property read on [null] names the
    property, as JavaScriptCore ([null is not an object (evaluating
    'body.text')]) and V8 ([Cannot read properties of null (reading
    'text')]) do. *)
Definition names_the_property (host : Host) : Prop :=
  forall key,
    includes key (TypeError_message host (PropertyOfNull key)) = true.

(** The message the [catch] clause reports. *)
Definition caught_message (e : Thrown) : js_string :=
  match e with
  | ErrorObject message => message
  | OtherValue => lit "Failed to parse request"
  end.

(** The text of a request that passes both checks. *)
Definition accepted_text (body : JsValue) (s : js_string) : Prop :=
  field body (lit "text") = Some (JString s) /\ s <> [] /\ trim s <> [].

(** The headers of every response that has a body. *)
Definition json_headers : list (js_string * js_string) :=
  (lit "Content-Type", lit "application/json") :: corsHeaders.

(** The two responses of the convert endpoint. *)
Definition success_response (noteContent filename : js_string) : Response :=
  {| status := 200;
     headers := json_headers;
     body := JsonText (JObject [(lit "success", JBool true);
                                (lit "noteContent", JString noteContent);
                                (lit "filename", JString filename)]) |}.

Definition failure_response (error : js_string) : Response :=
  {| status := 400;
     headers := json_headers;
     body := JsonText (JObject [(lit "success", JBool false);
                                (lit "error", JString error)]) |}.


(** The values [ToString] renders without throwing: every primitive, every
    object that has no own [toString] property, and every array whose
    elements are such values. *)
Fixpoint convertible (v : JsValue) : bool :=
  match v with
  | JArray elements =>
      (fix all (l : list JsValue) : bool :=
         match l with
         | [] => true
         | x :: rest => convertible x && all rest
         end) elements
  | JObject properties => negb (has_own_property properties (lit "toString"))
  | _ => true
  end.

(** An element of an array, as [Array.prototype.join] renders it. *)
Definition element_string (host : Host) (x : JsValue)
  : Completion js_string :=
  match x with
  | JNull => Normal []
  | _ => ToString host x
  end.

(** ** Sample hosts and requests *)

(** The Number rendering of an engine on integral values below 10^21, the
    only ones the samples use. *)
Definition integral_toString (x : spec_float) : js_string :=
  match x with
  | S754_zero _ => lit "0"
  | S754_infinity false => lit "Infinity"
  | S754_infinity true => lit "-Infinity"
  | S754_nan => lit "NaN"
  | S754_finite sign m e =>
      (if sign then lit "-" else [])
      ++ String_of_int (if 0 <=? e then Z.pos m * 2 ^ e
                        else Z.pos m / 2 ^ (- e))
  end.

Definition sample_message (kind : TypeErrorKind) : js_string :=
  match kind with
  | PropertyOfNull key =>
      lit "null is not an object (evaluating 'body." ++ key ++ lit "')"
  | NotAFunction key => key ++ lit " is not a function"
  | CannotConvertToPrimitive => lit "No default value"
  end.

(** A host eleven hours ahead of UTC whose clock stands at
    2026-01-28T13:30:00.000Z, half past midnight of the 29th local time. *)
Definition sample_host : Host :=
  {| clock := fun _ => 1769607000000;
     LocalTZA := fun _ => 39600000;
     Number_toString := integral_toString;
     TypeError_message := sample_message |}.

(** A host on UTC whose clock stands at 10000-01-01T00:00:00.000Z. *)
Definition late_host : Host :=
  {| clock := fun _ => 253402300800000;
     LocalTZA := fun _ => 0;
     Number_toString := integral_toString;
     TypeError_message := sample_message |}.

(** A host on UTC whose clock stands at 2026-01-28T13:30:00.000Z. *)
Definition utc_host : Host :=
  {| clock := fun _ => 1769607000000;
     LocalTZA := fun _ => 0;
     Number_toString := integral_toString;
     TypeError_message := sample_message |}.

(** The same host with a clock that advances one second per reading. *)
Definition ticking_host : Host :=
  {| clock := fun n => 1769607000000 + 1000 * Z.of_nat n;
     LocalTZA := fun _ => 39600000;
     Number_toString := integral_toString;
     TypeError_message := sample_message |}.

(** [POST /convert] with a body that parses to [v]. *)
Definition post (v : JsValue) : Request :=
  {| method := lit "POST"; pathname := lit "/convert"; json := Normal v |}.

Definition text_only (text : js_string) : JsValue :=
  JObject [(lit "text", JString text)].

Definition text_and_source (text : js_string) (source : JsValue) : JsValue :=
  JObject [(lit "text", JString text); (lit "source", source)].

(** ** Vocabulary of the further properties *)

(** The number of occurrences of a code unit in a string. *)
Fixpoint occurrences (c : code_unit) (s : js_string) : nat :=
  match s with
  | [] => O
  | x :: s' => (if N.eqb x c then 1 else 0)%nat + occurrences c s'
  end.

(** The code units a file name is written with: the two halves of the
    marker, the space, the hyphen, the digits and the letters of [am] and
    [pm]. *)
Definition filename_unit (c : code_unit) : bool :=
  isDigit c || existsb (N.eqb c) [55356; 57252; 32; 45; 97; 109; 112]%N.

(** The minute of local time a [Date] falls in. *)
Definition local_minute (d : Date) : Z := LocalTime d / msPerMinute.

(** ** The setup script: the default repository name

    [scripts/setup.ts] proposes a repository name from the package name:
    [packageName.startsWith('@') ? packageName.split('/')[1] || 'my-lib'
     : packageName]. *)

(** [s.split(sep)] for a one-unit separator. *)
Fixpoint split (sep : code_unit) (s : js_string) : list js_string :=
  match s with
  | [] => [[]]
  | c :: s' =>
      if N.eqb c sep then [] :: split sep s'
      else match split sep s' with
           | [] => [[c]]
           | segment :: rest => (c :: segment) :: rest
           end
  end.

Definition defaultRepoName (packageName : js_string) : js_string :=
  if startsWith (lit "@") packageName then
    match nth_error (split 47%N packageName) 1 with
    | Some segment => if eqb segment [] then lit "my-lib" else segment
    | None => lit "my-lib"
    end
  else packageName.

(** ** Strings: lemmas *)

Lemma eqb_eq (a b : js_string) : eqb a b = true <-> a = b.
Proof.
  revert b. induction a as [|x a IH]; intros [|y b]; simpl;
    try (split; [discriminate | discriminate]); try tauto.
  rewrite andb_true_iff, N.eqb_eq, IH. split.
  - intros [-> ->]. reflexivity.
  - intros E. injection E as -> ->. auto.
Qed.

Lemma eqb_refl (a : js_string) : eqb a a = true.
Proof. apply eqb_eq. reflexivity. Qed.

Lemma eqb_neq (a b : js_string) : eqb a b = false <-> a <> b.
Proof.
  split.
  - intros E H. apply eqb_eq in H. congruence.
  - intros H. destruct (eqb a b) eqn:E; [apply eqb_eq in E; contradiction | reflexivity].
Qed.

Lemma startsWith_app (k b : js_string) : startsWith k (k ++ b) = true.
Proof.
  induction k as [|x k IH]; simpl; [reflexivity|].
  rewrite N.eqb_refl, IH. reflexivity.
Qed.

Lemma includes_app (a k b : js_string) : includes k (a ++ k ++ b) = true.
Proof.
  induction a as [|x a IH].
  - simpl app. destruct (k ++ b) eqn:E; simpl.
    + destruct k; [reflexivity | discriminate E].
    + rewrite <- E, startsWith_app. reflexivity.
  - simpl. rewrite IH. apply orb_true_r.
Qed.

Lemma sample_message_names_the_property :
  forall key, includes key (sample_message (PropertyOfNull key)) = true.
Proof. intros key. apply includes_app. Qed.

Lemma trimStart_suffix (s : js_string) :
  exists p, s = p ++ trimStart s /\ forallb isWhiteSpace p = true.
Proof.
  induction s as [|c s IH]; simpl.
  - exists []. auto.
  - destruct (isWhiteSpace c) eqn:E.
    + destruct IH as [p [Hs Hp]]. exists (c :: p). simpl.
      rewrite E, <- Hs. auto.
    + exists []. auto.
Qed.

Lemma trimStart_head (s r : js_string) (c : code_unit) :
  trimStart s = c :: r -> isWhiteSpace c = false.
Proof.
  induction s as [|x s IH]; simpl; [discriminate|].
  destruct (isWhiteSpace x) eqn:E; [exact IH|].
  intros H. injection H as -> _. exact E.
Qed.

Lemma trimEnd_last (s r : js_string) (c : code_unit) :
  trimEnd s = r ++ [c] -> isWhiteSpace c = false.
Proof.
  unfold trimEnd. intros H.
  apply (f_equal (@rev _)) in H.
  rewrite rev_involutive, rev_app_distr in H. simpl in H.
  exact (trimStart_head _ _ _ H).
Qed.

Lemma trimEnd_prefix (s : js_string) :
  exists q, s = trimEnd s ++ q.
Proof.
  unfold trimEnd. destruct (trimStart_suffix (rev s)) as [p [Hs _]].
  exists (rev p). rewrite <- rev_app_distr, <- Hs, rev_involutive.
  reflexivity.
Qed.

(** The trimmed text neither starts nor ends with white space. *)
Lemma trim_head (s r : js_string) (c : code_unit) :
  trim s = c :: r -> isWhiteSpace c = false.
Proof.
  unfold trim. intros H.
  destruct (trimEnd_prefix (trimStart s)) as [q Hq].
  rewrite H in Hq. simpl in Hq. exact (trimStart_head _ _ _ Hq).
Qed.

Lemma trim_last (s r : js_string) (c : code_unit) :
  trim s = r ++ [c] -> isWhiteSpace c = false.
Proof. unfold trim. apply trimEnd_last. Qed.

Lemma trim_nil : trim [] = [].
Proof. reflexivity. Qed.

Lemma length_zero_nil (s : js_string) :
  (List.length s =? 0)%nat = true <-> s = [].
Proof.
  destruct s; simpl; split; intros H; try reflexivity; discriminate.
Qed.

(** ** Decimal renderings *)

Lemma isDigit_digit (d : Z) : 0 <= d < 10 -> isDigit (digit d) = true.
Proof.
  intros H. unfold isDigit, digit.
  apply andb_true_iff. split; apply N.leb_le; lia.
Qed.

Lemma decimal_digits (fuel : nat) (n : Z) :
  forallb isDigit (decimal fuel n) = true.
Proof.
  revert n. induction fuel as [|fuel IH]; intros n; simpl; [reflexivity|].
  rewrite forallb_app. simpl.
  rewrite isDigit_digit by (apply Z.mod_pos_bound; lia).
  destruct (n <? 10); simpl; [reflexivity|].
  rewrite IH. reflexivity.
Qed.

Lemma decimal_length_le (k fuel : nat) (n : Z) :
  (1 <= k)%nat -> n < 10 ^ Z.of_nat k ->
  (List.length (decimal fuel n) <= k)%nat.
Proof.
  revert k n. induction fuel as [|fuel IH]; intros k n Hk Hn; simpl; [lia|].
  rewrite length_app. simpl.
  destruct (n <? 10) eqn:E; simpl; [lia|].
  apply Z.ltb_ge in E.
  destruct k as [|[|k]]; [lia | simpl in Hn; lia |].
  assert (Hq : n / 10 < 10 ^ Z.of_nat (S k)).
  { apply Z.div_lt_upper_bound; [lia|].
    rewrite <- Z.pow_succ_r by lia.
    replace (Z.succ (Z.of_nat (S k))) with (Z.of_nat (S (S k))) by lia.
    exact Hn. }
  specialize (IH (S k) (n / 10) ltac:(lia) Hq). lia.
Qed.

Lemma decimal_length_ge (k fuel : nat) (n : Z) :
  (S k <= fuel)%nat -> 10 ^ Z.of_nat k <= n ->
  (S k <= List.length (decimal fuel n))%nat.
Proof.
  revert fuel n. induction k as [|k IH]; intros fuel n Hf Hn.
  - destruct fuel as [|fuel]; [lia|]. simpl. rewrite length_app. simpl. lia.
  - destruct fuel as [|fuel]; [lia|]. simpl. rewrite length_app. simpl.
    assert (Hp : 10 ^ Z.of_nat (S k) = 10 * 10 ^ Z.of_nat k).
    { replace (Z.of_nat (S k)) with (Z.succ (Z.of_nat k)) by lia.
      apply Z.pow_succ_r. lia. }
    assert (0 < 10 ^ Z.of_nat k) by (apply Z.pow_pos_nonneg; lia).
    destruct (n <? 10) eqn:E; [apply Z.ltb_lt in E; lia|].
    assert (Hq : 10 ^ Z.of_nat k <= n / 10).
    { apply Z.div_le_lower_bound; lia. }
    specialize (IH fuel (n / 10) ltac:(lia) Hq). lia.
Qed.

Lemma String_of_int_nonneg (n : Z) : 0 <= n -> String_of_int n = decimal 21 n.
Proof.
  intros H. unfold String_of_int.
  destruct (n <? 0) eqn:E; [apply Z.ltb_lt in E; lia | reflexivity].
Qed.

(** A number below [10^k], padded to [k] places, is [k] digits. *)
Lemma pad_digits (k : nat) (n : Z) :
  (1 <= k)%nat -> 0 <= n < 10 ^ Z.of_nat k -> digits k (pad k n).
Proof.
  intros Hk [H0 Hn]. unfold digits, pad, padStart.
  rewrite String_of_int_nonneg by exact H0.
  pose proof (decimal_length_le k 21 n Hk Hn) as Hl.
  split.
  - rewrite length_app, repeat_length. lia.
  - rewrite forallb_app, decimal_digits, andb_true_r.
    apply forallb_forall. intros x Hx. apply repeat_spec in Hx. subst x.
    reflexivity.
Qed.

(** A number of exactly [k] places needs no padding. *)
Lemma String_of_int_digits (k : nat) (n : Z) :
  (1 <= k <= 21)%nat -> 10 ^ Z.of_nat (k - 1) <= n < 10 ^ Z.of_nat k ->
  digits k (String_of_int n).
Proof.
  intros Hk [Hlo Hhi].
  assert (0 < 10 ^ Z.of_nat (k - 1)) by (apply Z.pow_pos_nonneg; lia).
  rewrite String_of_int_nonneg by lia. split.
  - pose proof (decimal_length_le k 21 n ltac:(lia) Hhi).
    pose proof (decimal_length_ge (k - 1) 21 n ltac:(lia) Hlo). lia.
  - apply decimal_digits.
Qed.

(** ** Dates: ranges of the fields *)

Lemma day_of_era_bounds (day : Z) : 0 <= day_of_era day < 146097.
Proof. unfold day_of_era. apply Z.mod_pos_bound. lia. Qed.

Lemma day_of_year_bounds (doe : Z) :
  0 <= doe < 146097 -> 0 <= day_of_year doe <= 365.
Proof.
  intros H. unfold day_of_year, year_of_era.
  Z.to_euclidean_division_equations; lia.
Qed.

Lemma month_from_march_bounds (doy : Z) :
  0 <= doy <= 365 -> 0 <= month_from_march doy <= 11.
Proof.
  intros H. unfold month_from_march. Z.to_euclidean_division_equations; lia.
Qed.

Lemma MonthFromTime_bounds (t : Z) : 0 <= MonthFromTime t <= 11.
Proof.
  unfold MonthFromTime.
  pose proof (month_from_march_bounds _
                (day_of_year_bounds _ (day_of_era_bounds (Day t)))) as H.
  cbv zeta. destruct (_ <? 10) eqn:E;
    [apply Z.ltb_lt in E | apply Z.ltb_ge in E]; lia.
Qed.

Lemma DateFromTime_bounds (t : Z) : 1 <= DateFromTime t <= 31.
Proof.
  unfold DateFromTime. cbv zeta.
  pose proof (day_of_year_bounds _ (day_of_era_bounds (Day t))) as H.
  revert H. generalize (day_of_year (day_of_era (Day t))). intros doy H.
  unfold month_from_march. Z.to_euclidean_division_equations; lia.
Qed.

Lemma HourFromTime_bounds (t : Z) : 0 <= HourFromTime t < 24.
Proof. unfold HourFromTime. apply Z.mod_pos_bound. lia. Qed.

Lemma MinFromTime_bounds (t : Z) : 0 <= MinFromTime t < 60.
Proof. unfold MinFromTime. apply Z.mod_pos_bound. lia. Qed.

Lemma hour12_bounds (d : Date) : 1 <= hour12 d <= 12.
Proof.
  unfold hour12, getHours.
  pose proof (HourFromTime_bounds (LocalTime d)) as H.
  destruct (_ =? 0) eqn:E; [lia|]. apply Z.eqb_neq in E.
  revert E. Z.to_euclidean_division_equations; lia.
Qed.

(** ** The formatting functions, equationally *)

Lemma pad_chars (w : nat) (n : Z) (x : code_unit) :
  In x (pad w n) -> isDigit x = true \/ x = 45%N.
Proof.
  unfold pad, padStart, String_of_int. intros H.
  apply in_app_or in H. destruct H as [H|H].
  - apply repeat_spec in H. subst x. left. reflexivity.
  - destruct (n <? 0).
    + destruct H as [H|H]; [right; symmetry; exact H|].
      left. revert x H. apply forallb_forall, decimal_digits.
    + left. revert x H. apply forallb_forall, decimal_digits.
Qed.

Lemma iso_year_chars (y : Z) (x : code_unit) :
  In x (iso_year y) -> isDigit x = true \/ x = 45%N \/ x = 43%N.
Proof.
  unfold iso_year. intros H. destruct (_ && _).
  - apply pad_chars in H. tauto.
  - apply in_app_or in H. destruct H as [H|H].
    + destruct (_ <? 0); destruct H as [H|[]]; subst x; tauto.
    + apply pad_chars in H. tauto.
Qed.

Lemma iso_date_chars (t : Z) (x : code_unit) :
  In x (iso_date t) -> isDigit x = true \/ x = 45%N \/ x = 43%N.
Proof.
  unfold iso_date. change (lit "-") with [45%N]. cbn [app]. intros H.
  apply in_app_or in H. destruct H as [H|H];
    [apply iso_year_chars in H; tauto|].
  destruct H as [H|H]; [subst x; tauto|].
  apply in_app_or in H. destruct H as [H|H]; [apply pad_chars in H; tauto|].
  destruct H as [H|H]; [subst x; tauto|].
  apply pad_chars in H. tauto.
Qed.

Lemma split_head_app (sep : code_unit) (a r : js_string) :
  ~ In sep a -> split_head sep (a ++ sep :: r) = a.
Proof.
  induction a as [|c a IH]; simpl; intros H.
  - rewrite N.eqb_refl. reflexivity.
  - destruct (N.eqb c sep) eqn:E.
    + apply N.eqb_eq in E. tauto.
    + rewrite IH by tauto. reflexivity.
Qed.

(** [toISOString().split('T')[0]] is the UTC calendar date. *)
Lemma split_head_toISOString (d : Date) :
  split_head 84%N (toISOString d) = iso_date (time_value d).
Proof.
  unfold toISOString. cbv zeta.
  change (lit "T") with [84%N]. simpl ([84%N] ++ _).
  apply split_head_app. intros H. apply iso_date_chars in H.
  destruct H as [H|[H|H]]; discriminate.
Qed.

Section Equations.

Variable host : Host.

Lemma generateTimestamp_eq (n : nat) :
  generateTimestamp host n =
  (Normal (local_date (date_at host n) ++ lit " "
           ++ String_of_int (hour12 (date_at host n)) ++ lit "-"
           ++ pad 2 (getMinutes (date_at host n))
           ++ meridiem (date_at host n)), S n).
Proof.
  unfold generateTimestamp, bind, new_Date, ret, local_date, hour12,
    meridiem, pad.
  repeat rewrite <- app_assoc. reflexivity.
Qed.

Lemma generateFilename_eq (n : nat) :
  generateFilename host n = (Normal (filename_at (date_at host n)), S n).
Proof.
  unfold generateFilename, bind. rewrite generateTimestamp_eq.
  reflexivity.
Qed.

Lemma generateFrontmatter_eq (source : JsValue) (n : nat) :
  generateFrontmatter host source n =
  match ToString host source with
  | Normal src =>
      (Normal (frontmatter_block (iso_date (clock host n)) src), S n)
  | Throw e => (Throw e, S n)
  end.
Proof.
  unfold generateFrontmatter, bind, new_Date, lift, ret.
  rewrite split_head_toISOString.
  destruct (ToString host source); reflexivity.
Qed.

Lemma generateNoteContent_eq (text : js_string) (source : JsValue)
  (n : nat) :
  generateNoteContent host text source n =
  match ToString host source with
  | Normal src =>
      (Normal (frontmatter_block (iso_date (clock host n)) src
               ++ newline ++ newline ++ text ++ newline), S n)
  | Throw e => (Throw e, S n)
  end.
Proof.
  unfold generateNoteContent, bind. rewrite generateFrontmatter_eq.
  destruct (ToString host source); reflexivity.
Qed.

Lemma Get_field (body : JsValue) (key : js_string) :
  body <> JNull -> Get host body key = Normal (field body key).
Proof. destruct body; intros H; try reflexivity. contradiction. Qed.

Lemma handleConvert_throwing_body (request : Request) (e : Thrown)
  (n : nat) :
  json request = Throw e ->
  handleConvert host request n
  = (Normal (ErrorResponse (caught_message e)), n).
Proof.
  intros H. unfold handleConvert, try_catch, bind, lift, ret.
  rewrite H. destruct e; reflexivity.
Qed.

Lemma handleConvert_null_body (request : Request) (n : nat) :
  json request = Normal JNull ->
  handleConvert host request n
  = (Normal (ErrorResponse
               (TypeError_message host (PropertyOfNull (lit "text")))), n).
Proof.
  intros H. unfold handleConvert, try_catch, bind, lift, ret.
  rewrite H. reflexivity.
Qed.

Lemma handleConvert_missing_text (request : Request) (body : JsValue)
  (n : nat) :
  json request = Normal body -> body <> JNull ->
  ToBoolean (field body (lit "text")) && is_string (field body (lit "text"))
  = false ->
  handleConvert host request n = (Normal (ErrorResponse missing_text), n).
Proof.
  intros H Hb Ht. unfold handleConvert, try_catch, bind, lift, ret.
  rewrite H, (Get_field _ _ Hb).
  rewrite <- negb_andb, Ht. reflexivity.
Qed.

Lemma handleConvert_blank_text (request : Request) (body : JsValue)
  (s : js_string) (n : nat) :
  json request = Normal body ->
  field body (lit "text") = Some (JString s) -> s <> [] -> trim s = [] ->
  handleConvert host request n
  = (Normal (ErrorResponse (lit "Text cannot be empty")), n).
Proof.
  intros H Hf Hs Ht. unfold handleConvert, try_catch, bind, lift, ret.
  assert (Hb : body <> JNull) by (intros ->; discriminate).
  rewrite H, (Get_field _ _ Hb), Hf.
  cbn [ToBoolean is_string call_trim negb orb].
  apply eqb_neq in Hs. rewrite Hs, Ht. reflexivity.
Qed.

Lemma handleConvert_accepted (request : Request) (body : JsValue)
  (s : js_string) (n : nat) :
  json request = Normal body -> accepted_text body s ->
  handleConvert host request n =
  match ToString host (or_else (field body (lit "source")) default_source)
  with
  | Normal src =>
      (Normal (ConvertResponse
                 (frontmatter_block (iso_date (clock host n)) src
                  ++ newline ++ newline ++ trim s ++ newline)
                 (filename_at (date_at host (S n)))), S (S n))
  | Throw e => (Normal (ErrorResponse (caught_message e)), S n)
  end.
Proof.
  intros H (Hf & Hs & Ht). unfold handleConvert, try_catch, bind, lift, ret.
  assert (Hb : body <> JNull) by (intros ->; discriminate).
  rewrite H, !(Get_field _ _ Hb), Hf.
  cbn [ToBoolean is_string call_trim negb orb].
  apply eqb_neq in Hs. rewrite Hs. cbn [negb orb].
  destruct (List.length (trim s) =? 0)%nat eqn:E;
    [apply length_zero_nil in E; contradiction|].
  rewrite generateNoteContent_eq. fold default_source.
  destruct (ToString host _) as [src|e]; [|destruct e; reflexivity].
  rewrite generateFilename_eq. reflexivity.
Qed.

(** The four ways a parsed body can go through the checks. *)
Lemma body_cases (body : JsValue) :
  body = JNull
  \/ (body <> JNull
      /\ ToBoolean (field body (lit "text"))
         && is_string (field body (lit "text")) = false)
  \/ (exists s, field body (lit "text") = Some (JString s)
                /\ s <> [] /\ trim s = [])
  \/ (exists s, accepted_text body s).
Proof.
  destruct body as [ | b | x | t | l | props];
    try (right; left; split; [discriminate | reflexivity]);
    [left; reflexivity|].
  unfold accepted_text.
  destruct (field (JObject props) (lit "text")) as [v|] eqn:Hf;
    [|right; left; split; [discriminate | reflexivity]].
  destruct v as [ | b | x | s | l | ps];
    try (right; left; split;
         [discriminate | cbn; try rewrite andb_false_r; reflexivity]).
  destruct s as [|c s'];
    [right; left; split; [discriminate | reflexivity]|].
  destruct (trim (c :: s')) as [|c' r] eqn:Ht.
  - right; right; left. exists (c :: s').
    repeat split; [discriminate | exact Ht].
  - right; right; right. exists (c :: s').
    repeat split; [discriminate | rewrite Ht; discriminate].
Qed.

(** [handleConvert] never throws. *)
Lemma handleConvert_returns (request : Request) (n : nat) :
  exists result n', handleConvert host request n = (Normal result, n').
Proof.
  destruct (json request) as [body|e] eqn:H.
  2:{ rewrite (handleConvert_throwing_body _ _ _ H). eauto. }
  destruct (body_cases body)
    as [-> | [[Hb Ht] | [(s & Hf & Hs & Ht) | (s & Ha)]]].
  - rewrite (handleConvert_null_body _ _ H). eauto.
  - rewrite (handleConvert_missing_text _ _ _ H Hb Ht). eauto.
  - rewrite (handleConvert_blank_text _ _ _ _ H Hf Hs Ht). eauto.
  - rewrite (handleConvert_accepted _ _ _ _ H Ha).
    destruct (ToString host _); eauto.
Qed.

(** A successful convert comes from an accepted text and a source whose
    conversion to a string does not throw. *)
Lemma handleConvert_success_inv (request : Request) (n n' : nat)
  (noteContent filename : js_string) :
  handleConvert host request n
  = (Normal (ConvertResponse noteContent filename), n') ->
  exists body s src,
    json request = Normal body /\ accepted_text body s
    /\ ToString host (or_else (field body (lit "source")) default_source)
       = Normal src
    /\ noteContent = frontmatter_block (iso_date (clock host n)) src
                     ++ newline ++ newline ++ trim s ++ newline
    /\ filename = filename_at (date_at host (S n))
    /\ n' = S (S n).
Proof.
  intros Hc.
  destruct (json request) as [body|e] eqn:H.
  2:{ rewrite (handleConvert_throwing_body _ _ _ H) in Hc. discriminate. }
  destruct (body_cases body)
    as [-> | [[Hb Ht] | [(s & Hf & Hs & Ht) | (s & Ha)]]].
  - rewrite (handleConvert_null_body _ _ H) in Hc. discriminate.
  - rewrite (handleConvert_missing_text _ _ _ H Hb Ht) in Hc. discriminate.
  - rewrite (handleConvert_blank_text _ _ _ _ H Hf Hs Ht) in Hc.
    discriminate.
  - rewrite (handleConvert_accepted _ _ _ _ H Ha) in Hc.
    destruct (ToString host _) as [src|e] eqn:Hsrc; [|discriminate].
    injection Hc as <- <- <-.
    exists body, s, src. repeat split; auto; apply Ha.
Qed.

End Equations.

(** ** The dispatcher *)

Section Dispatch.

Variable host : Host.

Lemma handler_convert (request : Request) (n : nat) :
  method request = lit "POST" -> pathname request = lit "/convert" ->
  exists result n',
    handleConvert host request n = (Normal result, n')
    /\ handler host request n
       = (Normal {| status := if success result then 200 else 400;
                    headers := json_headers;
                    body := JsonText (result_object result) |}, n').
Proof.
  intros Hm Hp.
  destruct (handleConvert_returns host request n) as (result & n' & Hc).
  exists result, n'. split; [exact Hc|].
  unfold handler. cbv zeta. rewrite Hm, Hp.
  change (eqb (lit "POST") (lit "OPTIONS")) with false.
  change (eqb (lit "/convert") (lit "/")) with false.
  rewrite !eqb_refl. cbn [andb]. unfold bind. rewrite Hc. reflexivity.
Qed.

Lemma handler_failure (request : Request) (error : js_string)
  (n n' : nat) :
  method request = lit "POST" -> pathname request = lit "/convert" ->
  handleConvert host request n = (Normal (ErrorResponse error), n') ->
  handler host request n = (Normal (failure_response error), n').
Proof.
  intros Hm Hp Hc.
  destruct (handler_convert request n Hm Hp) as (r & k & Hr & Hh).
  rewrite Hc in Hr. injection Hr as <- <-. exact Hh.
Qed.

Lemma handler_success (request : Request) (noteContent filename : js_string)
  (n n' : nat) :
  method request = lit "POST" -> pathname request = lit "/convert" ->
  handleConvert host request n
  = (Normal (ConvertResponse noteContent filename), n') ->
  handler host request n
  = (Normal (success_response noteContent filename), n').
Proof.
  intros Hm Hp Hc.
  destruct (handler_convert request n Hm Hp) as (r & k & Hr & Hh).
  rewrite Hc in Hr. injection Hr as <- <-. exact Hh.
Qed.

End Dispatch.

(** ** Validation of the text (claim C1) *)

(** C1, as the source has it.  For every [POST /convert] request whose
    body parses: when [text] is absent, is not a string, or is the empty
    string, the response is a 400 failure whose message contains [text];
    otherwise, when the non-empty [text] trims to the empty string, the
    response is the 400 failure with the message [Text cannot be empty],
    which contains [empty].  The first check that fails decides.  For a
    body other than [null] the first message is [Missing or invalid "text"
    field] (which does not contain [empty]); a body that parses to [null]
    has no [text], the read of [body.text] throws, and the message is the
    one of the engine's [TypeError], which names the property read. *)
Theorem validation_order (host : Host) (request : Request) (body : JsValue)
  (n : nat) :
  method request = lit "POST" -> pathname request = lit "/convert" ->
  json request = Normal body ->
  (names_the_property host ->
   field body (lit "text") = None
   \/ (exists v, field body (lit "text") = Some v
                 /\ forall s, v <> JString s)
   \/ field body (lit "text") = Some (JString []) ->
   exists error,
     handler host request n = (Normal (failure_response error), n)
     /\ includes (lit "text") error = true)
  /\ (body = JNull ->
      handler host request n
      = (Normal (failure_response
                   (TypeError_message host (PropertyOfNull (lit "text")))),
         n))
  /\ (body <> JNull ->
      (field body (lit "text") = None ->
       handler host request n = (Normal (failure_response missing_text), n))
      /\ (forall v, field body (lit "text") = Some v ->
                    (forall s, v <> JString s) ->
          handler host request n
          = (Normal (failure_response missing_text), n))
      /\ (field body (lit "text") = Some (JString []) ->
          handler host request n
          = (Normal (failure_response missing_text), n))
      /\ (forall s, field body (lit "text") = Some (JString s) ->
                    s <> [] -> trim s = [] ->
          handler host request n
          = (Normal (failure_response (lit "Text cannot be empty")), n)))
  /\ includes (lit "text") missing_text = true
  /\ includes (lit "empty") missing_text = false
  /\ includes (lit "empty") (lit "Text cannot be empty") = true.
Proof.
  intros Hm Hp Hj.
  assert (Hnull : body = JNull ->
                  handler host request n
                  = (Normal (failure_response
                               (TypeError_message host
                                  (PropertyOfNull (lit "text")))), n)).
  { intros ->. apply handler_failure; auto.
    apply handleConvert_null_body. exact Hj. }
  assert (Hmiss : body <> JNull ->
                  ToBoolean (field body (lit "text"))
                  && is_string (field body (lit "text")) = false ->
                  handler host request n
                  = (Normal (failure_response missing_text), n)).
  { intros Hb Ht. apply handler_failure; auto.
    apply (handleConvert_missing_text host request body); auto. }
  assert (Hinvalid : forall v, (forall s, v <> JString s) ->
                     ToBoolean (Some v) && is_string (Some v) = false).
  { intros v Hv. destruct v; cbn; try rewrite andb_false_r; try reflexivity.
    exfalso. exact (Hv s eq_refl). }
  split; [|split; [exact Hnull|split; [|repeat split; reflexivity]]].
  - intros Hengine Hcase.
    assert (Hdec : body = JNull \/ body <> JNull)
      by (destruct body; (left; reflexivity) || (right; discriminate)).
    destruct Hdec as [Hb|Hb].
    + eexists. split; [exact (Hnull Hb)|]. apply Hengine.
    + exists missing_text. split; [|reflexivity]. apply (Hmiss Hb).
      destruct Hcase as [Hf|[(v & Hf & Hv)|Hf]]; rewrite Hf;
        [reflexivity | exact (Hinvalid v Hv) | reflexivity].
  - intros Hb. repeat split.
    + intros Hf. apply (Hmiss Hb). rewrite Hf. reflexivity.
    + intros v Hf Hv. apply (Hmiss Hb). rewrite Hf. exact (Hinvalid v Hv).
    + intros Hf. apply (Hmiss Hb). rewrite Hf. reflexivity.
    + intros s Hf Hs Ht. apply handler_failure; auto.
      apply (handleConvert_blank_text host request body s); auto.
Qed.

Lemma validation_order_witness :
  handler sample_host (post (text_only (lit "   "))) 0%nat
  = (Normal (failure_response (lit "Text cannot be empty")), 0%nat)
  /\ exists error,
       handler sample_host (post JNull) 0%nat
       = (Normal (failure_response error), 0%nat)
       /\ includes (lit "text") error = true.
Proof.
  split.
  - refine (proj2 (proj2 (proj2
              (proj1 (proj2 (proj2
                 (validation_order sample_host
                    (post (text_only (lit "   ")))
                    (text_only (lit "   ")) 0%nat
                    eq_refl eq_refl eq_refl))) _)))
              (lit "   ") eq_refl _ eq_refl); discriminate.
  - apply (proj1 (validation_order sample_host (post JNull) JNull 0%nat
                    eq_refl eq_refl eq_refl)).
    + exact sample_message_names_the_property.
    + left. reflexivity.
Defined.

(** C1 as stated fails at the empty string: [{"text": ""}] has a [text]
    that is a string and trims to the empty string, and the message of the
    400 response does not contain [empty]. *)
Lemma empty_string_is_reported_as_missing :
  field (text_only []) (lit "text") = Some (JString [])
  /\ trim [] = []
  /\ exists error n',
       handler sample_host (post (text_only [])) 0%nat
       = (Normal (failure_response error), n')
       /\ includes (lit "empty") error = false.
Proof.
  split; [reflexivity|]. split; [reflexivity|].
  exists missing_text, 0%nat. split; reflexivity.
Qed.

(** ** Dispatch (claim C4) *)

(** C4.  For every request: [OPTIONS] is answered 204 with no body and the
    CORS headers alone; otherwise [GET /] is answered 200 with the health
    object, its timestamp the ISO rendering of the clock reading; otherwise
    [POST /convert] runs the convert operation and answers with its result;
    every other method and path is answered 404 with
    [{success: false, error: "Not found"}]. *)
Theorem dispatch_order (host : Host) (request : Request) (n : nat) :
  (method request = lit "OPTIONS" ->
   handler host request n
   = (Normal {| status := 204; headers := corsHeaders; body := NoBody |}, n))
  /\ (method request = lit "GET" -> pathname request = lit "/" ->
      handler host request n
      = (Normal
           {| status := 200;
              headers := json_headers;
              body := JsonText
                        (JObject
                           [(lit "status", JString (lit "ok"));
                            (lit "service",
                             JString (lit "voice-inbox-server"));
                            (lit "timestamp",
                             JString (toISOString (date_at host n)))]) |},
         S n))
  /\ (method request = lit "POST" -> pathname request = lit "/convert" ->
      exists result n',
        handleConvert host request n = (Normal result, n')
        /\ handler host request n
           = (Normal {| status := if success result then 200 else 400;
                        headers := json_headers;
                        body := JsonText (result_object result) |}, n'))
  /\ (method request <> lit "OPTIONS" ->
      ~ (method request = lit "GET" /\ pathname request = lit "/") ->
      ~ (method request = lit "POST" /\ pathname request = lit "/convert") ->
      handler host request n
      = (Normal
           {| status := 404;
              headers := json_headers;
              body := JsonText
                        (JObject [(lit "success", JBool false);
                                  (lit "error",
                                   JString (lit "Not found"))]) |}, n)).
Proof.
  repeat split.
  - intros Hm. unfold handler. cbv zeta. rewrite Hm, eqb_refl. reflexivity.
  - intros Hm Hp. unfold handler. cbv zeta. rewrite Hm, Hp.
    change (eqb (lit "GET") (lit "OPTIONS")) with false.
    rewrite !eqb_refl. reflexivity.
  - intros Hm Hp. apply handler_convert; assumption.
  - intros Ho Hg Hc. unfold handler. cbv zeta.
    apply eqb_neq in Ho. rewrite Ho.
    destruct (eqb (pathname request) (lit "/")
              && eqb (method request) (lit "GET")) eqn:E1.
    { apply andb_true_iff in E1. destruct E1 as [E1 E2].
      apply eqb_eq in E1, E2. tauto. }
    destruct (eqb (pathname request) (lit "/convert")
              && eqb (method request) (lit "POST")) eqn:E2.
    { apply andb_true_iff in E2. destruct E2 as [E2 E3].
      apply eqb_eq in E2, E3. tauto. }
    reflexivity.
Qed.

Lemma dispatch_order_witness :
  handler sample_host
    {| method := lit "GET"; pathname := lit "/unknown";
       json := Throw OtherValue |} 0%nat
  = (Normal
       {| status := 404;
          headers := json_headers;
          body := JsonText
                    (JObject [(lit "success", JBool false);
                              (lit "error", JString (lit "Not found"))]) |},
     0%nat).
Proof.
  apply (proj2 (proj2 (proj2
           (dispatch_order sample_host
              {| method := lit "GET"; pathname := lit "/unknown";
                 json := Throw OtherValue |} 0%nat)))).
  - discriminate.
  - intros [_ H]. discriminate H.
  - intros [H _]. discriminate H.
Defined.

(** ** The two shapes of a convert response (claim C5) *)



(** ** Headers (claim C7) *)

(** C7.  Every request is answered, and the response carries the three
    CORS headers whatever the branch; the preflight response (204, no body)
    carries nothing else, and every other response (200, 400 or 404, with a
    body) also carries [Content-Type: application/json]. *)
Theorem cors_headers_everywhere (host : Host) (request : Request) (n : nat) :
  exists response n',
    handler host request n = (Normal response, n')
    /\ get_header (headers response) (lit "Access-Control-Allow-Origin")
       = Some (lit "*")
    /\ get_header (headers response) (lit "Access-Control-Allow-Methods")
       = Some (lit "GET, POST, OPTIONS")
    /\ get_header (headers response) (lit "Access-Control-Allow-Headers")
       = Some (lit "Content-Type")
    /\ ((status response = 204 /\ body response = NoBody
         /\ headers response = corsHeaders
         /\ get_header (headers response) (lit "Content-Type") = None)
        \/ ((status response = 200 \/ status response = 400
             \/ status response = 404)
            /\ body response <> NoBody
            /\ get_header (headers response) (lit "Content-Type")
               = Some (lit "application/json"))).
Proof.
  unfold handler. cbv zeta.
  destruct (eqb (method request) (lit "OPTIONS")) eqn:Eo.
  { eexists. eexists. split; [reflexivity|]. cbn [headers status body].
    repeat split. left. repeat split. }
  destruct (eqb (pathname request) (lit "/")
            && eqb (method request) (lit "GET")) eqn:Eg.
  { eexists. eexists. split; [reflexivity|]. cbn [headers status body].
    repeat split. right. repeat split; [auto | discriminate]. }
  destruct (eqb (pathname request) (lit "/convert")
            && eqb (method request) (lit "POST")) eqn:Ec.
  { destruct (handleConvert_returns host request n) as (r & n' & Hc).
    unfold bind. rewrite Hc. eexists. eexists. split; [reflexivity|].
    cbn [headers status body]. repeat split. right.
    repeat split; [destruct (success r); auto | discriminate]. }
  eexists. eexists. split; [reflexivity|]. cbn [headers status body].
  repeat split. right. repeat split; [auto | discriminate].
Qed.

(** ** The note (claims C2 and C6) *)







(** C6.  In every successful convert the value written after [source: ] is
    the request's [source] when that member is present and truthy (itself
    when it is a string, its string rendering otherwise), and
    [superwhisper] when it is absent or falsy, the empty string included. *)
Theorem source_or_default (host : Host) (request : Request) (n n' : nat)
  (noteContent filename : js_string) :
  handleConvert host request n
  = (Normal (ConvertResponse noteContent filename), n') ->
  exists body s source,
    json request = Normal body
    /\ noteContent
       = frontmatter_block (iso_date (clock host n)) source
         ++ newline ++ newline ++ trim s ++ newline
    /\ (ToBoolean (field body (lit "source")) = true ->
        exists v, field body (lit "source") = Some v
                  /\ ToString host v = Normal source
                  /\ (forall t, v = JString t -> source = t))
    /\ (ToBoolean (field body (lit "source")) = false ->
        source = lit "superwhisper")
    /\ (field body (lit "source") = None -> source = lit "superwhisper")
    /\ (field body (lit "source") = Some (JString []) ->
        source = lit "superwhisper").
Proof.
  intros Hc.
  destruct (handleConvert_success_inv host _ _ _ _ _ Hc)
    as (body & s & src & Hj & _ & Hsrc & Hn & _ & _).
  exists body, s, src.
  assert (Hfalsy : ToBoolean (field body (lit "source")) = false ->
                   src = lit "superwhisper").
  { intros Hb. unfold or_else in Hsrc.
    destruct (field body (lit "source")) as [v|]; [rewrite Hb in Hsrc|];
      cbn in Hsrc; injection Hsrc as <-; reflexivity. }
  repeat split; auto.
  - intros Hb. unfold or_else in Hsrc.
    destruct (field body (lit "source")) as [v|] eqn:Hf; [|discriminate].
    rewrite Hb in Hsrc. exists v. repeat split; auto.
    intros t ->. cbn in Hsrc. injection Hsrc as <-. reflexivity.
  - intros Hf. apply Hfalsy. rewrite Hf. reflexivity.
  - intros Hf. apply Hfalsy. rewrite Hf. reflexivity.
Qed.

Lemma source_or_default_witness :
  exists noteContent filename n',
    handleConvert sample_host
      (post (text_and_source (lit "hello") (JString (lit "ios-dictation"))))
      0%nat
    = (Normal (ConvertResponse noteContent filename), n')
    /\ includes (lit "source: ios-dictation") noteContent = true.
Proof.
  eexists. eexists. eexists. split; [vm_compute; reflexivity|].
  destruct (source_or_default sample_host
              (post (text_and_source (lit "hello")
                       (JString (lit "ios-dictation"))))
              0%nat _ _ _ eq_refl)
    as (body & s & source & Hj & Hn & Ht & _).
  injection Hj as <-.
  destruct (Ht eq_refl) as (v & Hv & _ & Hs).
  vm_compute in Hv. injection Hv as <-.
  rewrite (Hs _ eq_refl) in Hn.
  apply (f_equal (includes (lit "source: ios-dictation"))) in Hn.
  etransitivity; [exact Hn|]. vm_compute. reflexivity.
Defined.

(** ** The file name (claims C3 and C9) *)

Lemma local_date_format (d : Date) :
  1000 <= getFullYear d <= 9999 ->
  exists year month day,
    local_date d = year ++ lit "-" ++ month ++ lit "-" ++ day
    /\ digits 4 year /\ digits 2 month /\ digits 2 day.
Proof.
  intros Hy. unfold local_date.
  pose proof (MonthFromTime_bounds (LocalTime d)).
  pose proof (DateFromTime_bounds (LocalTime d)).
  do 3 eexists. split; [reflexivity|]. unfold getMonth, getDate.
  split; [|split].
  - apply String_of_int_digits; [lia|].
    change (10 ^ Z.of_nat (4 - 1)) with 1000.
    change (10 ^ Z.of_nat 4) with 10000. lia.
  - apply pad_digits; [lia|]. change (10 ^ Z.of_nat 2) with 100. lia.
  - apply pad_digits; [lia|]. change (10 ^ Z.of_nat 2) with 100. lia.
Qed.

Lemma hour12_rendering (d : Date) :
  In (String_of_int (hour12 d))
     (map lit ["1"; "2"; "3"; "4"; "5"; "6"; "7"; "8"; "9"; "10"; "11";
               "12"]%string).
Proof.
  pose proof (hour12_bounds d) as H.
  assert (E : hour12 d = 1 \/ hour12 d = 2 \/ hour12 d = 3 \/ hour12 d = 4
              \/ hour12 d = 5 \/ hour12 d = 6 \/ hour12 d = 7
              \/ hour12 d = 8 \/ hour12 d = 9 \/ hour12 d = 10
              \/ hour12 d = 11 \/ hour12 d = 12) by lia.
  repeat (destruct E as [E|E]; [rewrite E; vm_compute; tauto|]).
  rewrite E. vm_compute. tauto.
Qed.

Lemma meridiem_cases (d : Date) :
  meridiem d = lit "am" \/ meridiem d = lit "pm".
Proof. unfold meridiem. destruct (12 <=? getHours d); auto. Qed.

Lemma minutes_digits (d : Date) : digits 2 (pad 2 (getMinutes d)).
Proof.
  pose proof (MinFromTime_bounds (LocalTime d)). unfold getMinutes.
  apply pad_digits; [lia|]. change (10 ^ Z.of_nat 2) with 100. lia.
Qed.

(** C3, as the source has it.  The file name of a successful convert is a
    function of the clock reading taken for it and of nothing in the
    request: the marker, a space, the local year in decimal, a hyphen, two
    digits of month, a hyphen, two digits of day, a space, the hour from 1
    to 12 without a leading zero, a hyphen, two digits of minutes, and [am]
    or [pm].  The year is not padded: the file name matches the pattern
    with a four-digit year when the local year is from 1000 to 9999. *)
Theorem filename_format (host : Host) (request : Request) (n n' : nat)
  (noteContent filename : js_string) :
  handleConvert host request n
  = (Normal (ConvertResponse noteContent filename), n') ->
  filename = filename_at (date_at host (S n))
  /\ (exists month day hour minute ampm,
        filename
        = microphone ++ lit " "
          ++ String_of_int (getFullYear (date_at host (S n)))
          ++ lit "-" ++ month ++ lit "-" ++ day ++ lit " " ++ hour
          ++ lit "-" ++ minute ++ ampm
        /\ digits 2 month /\ digits 2 day
        /\ In hour (map lit ["1"; "2"; "3"; "4"; "5"; "6"; "7"; "8"; "9";
                             "10"; "11"; "12"]%string)
        /\ digits 2 minute
        /\ (ampm = lit "am" \/ ampm = lit "pm"))
  /\ (1000 <= getFullYear (date_at host (S n)) <= 9999 ->
      filename_pattern filename).
Proof.
  intros Hc.
  destruct (handleConvert_success_inv host _ _ _ _ _ Hc)
    as (body & s & src & _ & _ & _ & _ & Hf & _).
  subst filename. set (now := date_at host (S n)).
  pose proof (MonthFromTime_bounds (LocalTime now)) as Hmo.
  pose proof (DateFromTime_bounds (LocalTime now)) as Hda.
  split; [reflexivity|]. split.
  - exists (pad 2 (getMonth now + 1)), (pad 2 (getDate now)),
      (String_of_int (hour12 now)), (pad 2 (getMinutes now)), (meridiem now).
    split.
    { unfold filename_at, local_date. repeat rewrite <- app_assoc.
      reflexivity. }
    unfold getMonth, getDate.
    split; [|split; [|split; [|split]]].
    + apply pad_digits; [lia|]. change (10 ^ Z.of_nat 2) with 100. lia.
    + apply pad_digits; [lia|]. change (10 ^ Z.of_nat 2) with 100. lia.
    + apply hour12_rendering.
    + apply minutes_digits.
    + apply meridiem_cases.
  - intros Hy.
    destruct (local_date_format now Hy) as (y & m & d & Hl & Hdy & Hdm & Hdd).
    exists y, m, d, (String_of_int (hour12 now)), (pad 2 (getMinutes now)),
      (meridiem now).
    split.
    { unfold filename_at. rewrite Hl. repeat rewrite <- app_assoc.
      reflexivity. }
    split; [exact Hdy|]. split; [exact Hdm|]. split; [exact Hdd|].
    split; [apply hour12_rendering|].
    split; [apply minutes_digits | apply meridiem_cases].
Qed.

Lemma filename_format_witness :
  exists noteContent filename n',
    handleConvert sample_host (post (text_only (lit "hello"))) 0%nat
    = (Normal (ConvertResponse noteContent filename), n')
    /\ filename = microphone ++ lit " 2026-01-29 12-30am"
    /\ filename_pattern filename.
Proof.
  eexists. eexists. eexists. split; [vm_compute; reflexivity|].
  destruct (filename_format sample_host (post (text_only (lit "hello")))
              0%nat _ _ _ eq_refl) as (Hf & _ & Hp).
  split; [etransitivity; [exact Hf|]; vm_compute; reflexivity|].
  apply Hp. vm_compute. split; discriminate.
Defined.

(** C3 as stated fails when the local year has five digits: at
    10000-01-01T00:00 the file name is [10000-01-01 12-00am] after the
    marker, which does not match the pattern. *)
Lemma five_digit_year_breaks_pattern :
  exists noteContent filename n',
    handleConvert late_host (post (text_only (lit "hello"))) 0%nat
    = (Normal (ConvertResponse noteContent filename), n')
    /\ filename = microphone ++ lit " 10000-01-01 12-00am"
    /\ ~ filename_pattern filename.
Proof.
  eexists. eexists. eexists. split; [vm_compute; reflexivity|].
  split; [vm_compute; reflexivity|].
  intros (year & month & day & hour & minute & ampm & Heq & [Hl _] & _).
  destruct year as [|a [|b [|c [|d [|e r]]]]]; try discriminate Hl.
  vm_compute in Heq. discriminate Heq.
Qed.

(** C9.  In a successful convert [created] is the UTC calendar date of the
    first clock reading ([iso_date] of the time value), while the file name
    is written from the local fields of the second reading (the time value
    shifted by the zone offset); and there is a convert, both readings the
    same instant, whose [created] date differs from the date in its file
    name. *)
Theorem created_utc_filename_local :
  (forall (host : Host) (request : Request) (n n' : nat)
          (noteContent filename : js_string),
      handleConvert host request n
      = (Normal (ConvertResponse noteContent filename), n') ->
      exists source text,
        noteContent
        = frontmatter_block (iso_date (time_value (date_at host n))) source
          ++ newline ++ newline ++ text ++ newline
        /\ filename
           = microphone ++ lit " " ++ local_date (date_at host (S n))
             ++ lit " " ++ String_of_int (hour12 (date_at host (S n)))
             ++ lit "-" ++ pad 2 (getMinutes (date_at host (S n)))
             ++ meridiem (date_at host (S n)))
  /\ (exists (host : Host) (request : Request) (n n' : nat)
             (noteContent filename : js_string),
         date_at host n = date_at host (S n)
         /\ handleConvert host request n
            = (Normal (ConvertResponse noteContent filename), n')
         /\ iso_date (time_value (date_at host n)) = lit "2026-01-28"
         /\ local_date (date_at host (S n)) = lit "2026-01-29"
         /\ iso_date (time_value (date_at host n))
            <> local_date (date_at host (S n))).
Proof.
  split.
  - intros host request n n' noteContent filename Hc.
    destruct (handleConvert_success_inv host _ _ _ _ _ Hc)
      as (body & s & src & _ & _ & _ & Hn & Hf & _).
    exists src, (trim s). split; [exact Hn|].
    rewrite Hf. unfold filename_at. repeat rewrite <- app_assoc.
    reflexivity.
  - exists sample_host, (post (text_only (lit "hello"))), 0%nat.
    eexists. eexists. eexists.
    split; [reflexivity|]. split; [vm_compute; reflexivity|].
    split; [vm_compute; reflexivity|]. split; [vm_compute; reflexivity|].
    vm_compute. discriminate.
Qed.

Lemma created_utc_filename_local_witness :
  exists noteContent filename n',
    handleConvert sample_host (post (text_only (lit "hello"))) 0%nat
    = (Normal (ConvertResponse noteContent filename), n')
    /\ includes (lit "created: 2026-01-28") noteContent = true
    /\ includes (lit " 2026-01-29 ") filename = true.
Proof.
  eexists. eexists. eexists. split; [vm_compute; reflexivity|].
  destruct (proj1 created_utc_filename_local sample_host
              (post (text_only (lit "hello"))) 0%nat _ _ _ eq_refl)
    as (source & text & Hn & Hf).
  split.
  - apply (f_equal (includes (lit "created: 2026-01-28"))) in Hn.
    vm_compute. reflexivity.
  - apply (f_equal (includes (lit " 2026-01-29 "))) in Hf.
    etransitivity; [exact Hf|]. vm_compute. reflexivity.
Defined.

(** ** The source is rendered, not checked (claim C10) *)

Lemma ToString_array_one (host : Host) (x : JsValue) :
  ToString host (JArray [x]) = element_string host x.
Proof.
  unfold element_string. cbn.
  destruct (match x with JNull => _ | _ => _ end); reflexivity.
Qed.

Lemma ToString_array_cons (host : Host) (x y : JsValue)
  (l : list JsValue) :
  ToString host (JArray (x :: y :: l))
  = match element_string host x with
    | Throw e => Throw e
    | Normal s =>
        match ToString host (JArray (y :: l)) with
        | Throw e => Throw e
        | Normal r => Normal (s ++ lit "," ++ r)
        end
    end.
Proof. reflexivity. Qed.

Lemma convertible_array_cons (x : JsValue) (l : list JsValue) :
  convertible (JArray (x :: l)) = convertible x && convertible (JArray l).
Proof. reflexivity. Qed.

(** [ToString] throws exactly on the values that are not [convertible], and
    what it throws is the engine's [TypeError]. *)
Lemma ToString_convertible (host : Host) (v : JsValue) :
  exists s,
    ToString host v
    = if convertible v then Normal s
      else TypeError host CannotConvertToPrimitive.
Proof.
  induction v using JsValue_nested_ind;
    try (eexists; reflexivity).
  - destruct b; eexists; reflexivity.
  - induction H as [|x l Hx Hl IH].
    + exists []. reflexivity.
    + destruct IH as [sl IH].
      assert (Helem : exists sx,
                 element_string host x
                 = if convertible x then Normal sx
                   else TypeError host CannotConvertToPrimitive).
      { destruct Hx as [sx Hx]. destruct x; try (exists sx; exact Hx).
        exists []. reflexivity. }
      destruct Helem as [sx Helem].
      rewrite convertible_array_cons.
      destruct l as [|y l'].
      * rewrite ToString_array_one, Helem.
        destruct (convertible x); [exists sx | exists []]; reflexivity.
      * rewrite ToString_array_cons, Helem, IH.
        destruct (convertible x); [|exists []; reflexivity].
        destruct (convertible (JArray (y :: l')));
          [eexists | exists []]; reflexivity.
  - cbn [ToString convertible].
    destruct (has_own_property properties (lit "toString"));
      [exists [] | eexists]; reflexivity.
Qed.

(** C10, as the source has it.  For every [POST /convert] request with an
    accepted text and a truthy [source] of whatever type: when the source is
    [convertible] (a boolean, a number, a string, an object without an own
    [toString] property, or an array of such values) the response is 200 and
    the string rendering of the source, a string being its own rendering,
    stands unescaped after [source: ]; when it is not, the conversion
    throws and the response is 400 with the message of the [TypeError]. *)
Theorem truthy_source_is_rendered (host : Host) (request : Request)
  (body : JsValue) (s : js_string) (v : JsValue) (n : nat) :
  method request = lit "POST" -> pathname request = lit "/convert" ->
  json request = Normal body -> accepted_text body s ->
  field body (lit "source") = Some v -> ToBoolean (Some v) = true ->
  (convertible v = true ->
   exists source,
     ToString host v = Normal source
     /\ (forall t, v = JString t -> source = t)
     /\ handler host request n
        = (Normal (success_response
                     (frontmatter_block (iso_date (clock host n)) source
                      ++ newline ++ newline ++ trim s ++ newline)
                     (filename_at (date_at host (S n)))), S (S n)))
  /\ (convertible v = false ->
      handler host request n
      = (Normal (failure_response
                   (TypeError_message host CannotConvertToPrimitive)),
         S n)).
Proof.
  intros Hm Hp Hj Ha Hf Hb.
  pose proof (handleConvert_accepted host request body s n Hj Ha) as Hc.
  unfold or_else in Hc. rewrite Hf, Hb in Hc.
  destruct (ToString_convertible host v) as [src Hs]. split; intros Hv.
  - rewrite Hv in Hs. rewrite Hs in Hc. exists src.
    split; [exact Hs|]. split.
    + intros t ->. cbn in Hs. injection Hs as <-. reflexivity.
    + apply handler_success; assumption.
  - rewrite Hv in Hs. rewrite Hs in Hc.
    apply handler_failure; assumption.
Qed.

Lemma truthy_source_is_rendered_witness :
  handler sample_host
    (post (text_and_source (lit "hello") (JNumber (number 42)))) 0%nat
  = (Normal (success_response
               (frontmatter_block (lit "2026-01-28") (lit "42")
                ++ newline ++ newline ++ lit "hello" ++ newline)
               (microphone ++ lit " 2026-01-29 12-30am")), 2%nat).
Proof.
  assert (Ha : accepted_text
                 (text_and_source (lit "hello") (JNumber (number 42)))
                 (lit "hello"))
    by (repeat split; discriminate).
  assert (Hb : ToBoolean (Some (JNumber (number 42))) = true)
    by (vm_compute; reflexivity).
  destruct (proj1 (truthy_source_is_rendered sample_host
                     (post (text_and_source (lit "hello")
                              (JNumber (number 42))))
                     (text_and_source (lit "hello") (JNumber (number 42)))
                     (lit "hello") (JNumber (number 42)) 0%nat
                     eq_refl eq_refl eq_refl Ha eq_refl Hb) eq_refl)
    as (source & Hs & _ & Hh).
  vm_compute in Hs. injection Hs as <-.
  etransitivity; [exact Hh|]. vm_compute. reflexivity.
Defined.

(** C10 as stated fails on a truthy source with an own [toString]
    property: [{"text": "hello", "source": {"toString": "x"}}] has an
    accepted text and a truthy source, and is answered 400. *)
Lemma own_toString_source_is_rejected :
  accepted_text
    (text_and_source (lit "hello")
       (JObject [(lit "toString", JString (lit "x"))])) (lit "hello")
  /\ ToBoolean (Some (JObject [(lit "toString", JString (lit "x"))])) = true
  /\ exists response n',
       handler sample_host
         (post (text_and_source (lit "hello")
                  (JObject [(lit "toString", JString (lit "x"))]))) 0%nat
       = (Normal response, n')
       /\ status response = 400
       /\ response = failure_response (lit "No default value").
Proof.
  split; [repeat split; discriminate|]. split; [reflexivity|].
  eexists. eexists. split; [vm_compute; reflexivity|].
  split; reflexivity.
Qed.

(** ** The port (claim C8) *)

(** C8, as the source has it.  [PORT] is the value of the one environment
    variable whenever that is set to a non-empty string, whatever the
    string, and the number 3000 when the variable is unset or empty. *)
Theorem port_or_default (env_PORT : option js_string) :
  PORT env_PORT
  = match env_PORT with
    | Some (c :: s) => JString (c :: s)
    | Some [] | None => JNumber (number 3000)
    end.
Proof. destruct env_PORT as [[|c s]|]; reflexivity. Qed.

(** C8 as stated fails on a value that is not a number: with [PORT=abc]
    the module does not fall back to 3000. *)
Lemma non_numeric_port_is_kept :
  PORT (Some (lit "abc")) = JString (lit "abc")
  /\ PORT (Some (lit "abc")) <> JNumber (number 3000).
Proof. split; [reflexivity | discriminate]. Qed.

(** * Further properties of the module *)

(** ** What trimming removes *)

Lemma forallb_rev (f : code_unit -> bool) (s : js_string) :
  forallb f (rev s) = forallb f s.
Proof.
  induction s as [|c s IH]; [reflexivity|]. simpl.
  rewrite forallb_app, IH. simpl. rewrite andb_true_r. apply andb_comm.
Qed.

Lemma trimStart_all_white (s : js_string) :
  forallb isWhiteSpace s = true -> trimStart s = [].
Proof.
  induction s as [|c s IH]; [reflexivity|]. simpl. intros H.
  apply andb_true_iff in H. destruct H as [Hc Hs]. rewrite Hc. auto.
Qed.

Lemma trimStart_nil_inv (s : js_string) :
  trimStart s = [] -> forallb isWhiteSpace s = true.
Proof.
  intros H. destruct (trimStart_suffix s) as [p [Hs Hp]].
  rewrite H, app_nil_r in Hs. subst s. exact Hp.
Qed.

(** The text trims to nothing exactly when all of it is white space. *)
Lemma trim_nil_iff (s : js_string) :
  trim s = [] <-> forallb isWhiteSpace s = true.
Proof.
  unfold trim, trimEnd. split.
  - intros H. apply (f_equal (@rev _)) in H.
    rewrite rev_involutive in H. simpl in H.
    apply trimStart_nil_inv in H. rewrite forallb_rev in H.
    destruct (trimStart s) as [|c r] eqn:E.
    + apply trimStart_nil_inv. exact E.
    + apply trimStart_head in E. simpl in H. rewrite E in H. discriminate.
  - intros H. rewrite (trimStart_all_white s H). reflexivity.
Qed.

(** Trimming takes white space off both ends and nothing else. *)
Lemma trim_decompose (s : js_string) :
  exists pre post,
    s = pre ++ trim s ++ post
    /\ forallb isWhiteSpace pre = true /\ forallb isWhiteSpace post = true.
Proof.
  destruct (trimStart_suffix s) as [p [Hs Hp]].
  destruct (trimStart_suffix (rev (trimStart s))) as [q [Hr Hq]].
  exists p, (rev q). split; [|split].
  - unfold trim, trimEnd. rewrite <- rev_app_distr, <- Hr, rev_involutive.
    exact Hs.
  - exact Hp.
  - rewrite forallb_rev. exact Hq.
Qed.

Lemma trimStart_fixed (c : code_unit) (r : js_string) :
  isWhiteSpace c = false -> trimStart (c :: r) = c :: r.
Proof. intros H. simpl. rewrite H. reflexivity. Qed.

Lemma trimEnd_fixed (r : js_string) (c : code_unit) :
  isWhiteSpace c = false -> trimEnd (r ++ [c]) = r ++ [c].
Proof.
  intros H. unfold trimEnd. rewrite rev_unit, (trimStart_fixed c _ H).
  simpl. rewrite rev_involutive. reflexivity.
Qed.

(** Trimming a trimmed text changes nothing. *)
Lemma trim_idempotent (s : js_string) : trim (trim s) = trim s.
Proof.
  destruct (trim s) as [|c r] eqn:E; [reflexivity|].
  pose proof (trim_head s r c E) as Hh.
  unfold trim at 1. rewrite (trimStart_fixed c r Hh).
  destruct (exists_last (l := c :: r) ltac:(discriminate)) as (r' & c' & El).
  rewrite El in E |- *. apply trimEnd_fixed. exact (trim_last s r' c' E).
Qed.

(** ** Which texts are accepted *)

Lemma blank_or_not (s : js_string) :
  (exists c, In c s /\ isWhiteSpace c = false)
  \/ forallb isWhiteSpace s = true.
Proof.
  destruct (forallb isWhiteSpace s) eqn:E; [right; reflexivity | left].
  induction s as [|c s IH]; [discriminate|]. simpl in E.
  destruct (isWhiteSpace c) eqn:Ec.
  - destruct (IH E) as (x & Hin & Hx). exists x. split; [right|]; assumption.
  - exists c. split; [left; reflexivity | exact Ec].
Qed.

(** X1.  A [POST /convert] request whose [text] is a string passes the two
    checks exactly when the string has a code unit that is not white
    space.  With such a unit the request reaches the writing of the note:
    it is answered 200, the body of the note the trimmed text, when its
    source (or the default) converts to a string, and 400 with the message
    of the [TypeError] when it does not; either way the clock has been
    read.  Without one the response is the 400 failure of the checks,
    [Missing or invalid "text" field] for the empty string and [Text cannot
    be empty] for any other, and the clock has not been read. *)
Theorem text_accepted_iff_not_blank (host : Host) (request : Request)
  (body : JsValue) (s : js_string) (n : nat) :
  method request = lit "POST" -> pathname request = lit "/convert" ->
  json request = Normal body ->
  field body (lit "text") = Some (JString s) ->
  ((exists c, In c s /\ isWhiteSpace c = false) ->
   if convertible (or_else (field body (lit "source")) default_source)
   then exists source,
       handler host request n
       = (Normal (success_response
                    (frontmatter_block (iso_date (clock host n)) source
                     ++ newline ++ newline ++ trim s ++ newline)
                    (filename_at (date_at host (S n)))), S (S n))
   else handler host request n
        = (Normal (failure_response
                     (TypeError_message host CannotConvertToPrimitive)),
           S n))
  /\ (forallb isWhiteSpace s = true ->
      handler host request n
      = (Normal (failure_response
                   (if eqb s [] then missing_text
                    else lit "Text cannot be empty")), n))
  /\ ((exists c, In c s /\ isWhiteSpace c = false)
      \/ forallb isWhiteSpace s = true).
Proof.
  intros Hm Hp Hj Hf. split; [|split; [|apply blank_or_not]].
  - intros (c & Hin & Hc).
    assert (Hw : forallb isWhiteSpace s = true -> False).
    { intros H. rewrite forallb_forall in H. rewrite (H c Hin) in Hc.
      discriminate. }
    assert (Ha : accepted_text body s).
    { split; [exact Hf|]. split.
      - intros ->. destruct Hin.
      - intros Ht. apply trim_nil_iff in Ht. exact (Hw Ht). }
    pose proof (handleConvert_accepted host request body s n Hj Ha) as Hconv.
    destruct (ToString_convertible host
                (or_else (field body (lit "source")) default_source))
      as [src Hs].
    destruct (convertible _); rewrite Hs in Hconv.
    + exists src. apply handler_success; assumption.
    + apply handler_failure; assumption.
  - intros Hw. apply handler_failure; auto.
    destruct s as [|c s'].
    + apply (handleConvert_missing_text host request body); auto.
      * intros ->. discriminate.
      * rewrite Hf. reflexivity.
    + apply (handleConvert_blank_text host request body (c :: s')); auto.
      * discriminate.
      * apply trim_nil_iff. exact Hw.
Qed.

Lemma text_accepted_iff_not_blank_witness :
  handler sample_host (post (text_only [160%N; 65279%N; 9%N])) 0%nat
  = (Normal (failure_response (lit "Text cannot be empty")), 0%nat)
  /\ exists source,
       handler sample_host (post (text_only [160%N; 104%N; 105%N; 9%N]))
         0%nat
       = (Normal (success_response
                    (frontmatter_block (lit "2026-01-28") source
                     ++ newline ++ newline ++ lit "hi" ++ newline)
                    (microphone ++ lit " 2026-01-29 12-30am")), 2%nat).
Proof.
  split.
  - exact (proj1 (proj2 (text_accepted_iff_not_blank sample_host
                           (post (text_only [160%N; 65279%N; 9%N]))
                           (text_only [160%N; 65279%N; 9%N])
                           [160%N; 65279%N; 9%N]
                           0%nat eq_refl eq_refl eq_refl eq_refl)) eq_refl).
  - destruct (proj1 (text_accepted_iff_not_blank sample_host
                       (post (text_only [160%N; 104%N; 105%N; 9%N]))
                       (text_only [160%N; 104%N; 105%N; 9%N])
                       [160%N; 104%N; 105%N; 9%N]
                       0%nat eq_refl eq_refl eq_refl eq_refl)
                (ex_intro _ 104%N
                   (conj (or_intror (or_introl eq_refl)) eq_refl)))
      as [source Hh].
    exists source. etransitivity; [exact Hh|]. vm_compute. reflexivity.
Defined.

(** X2.  In a successful convert the body of the note is the text as sent
    with white space taken off its two ends and nothing else changed: the
    text is some white space, the body, and some white space, and the body
    is not empty. *)
Theorem note_body_is_text_without_margins (host : Host) (request : Request)
  (n n' : nat) (noteContent filename : js_string) :
  handleConvert host request n
  = (Normal (ConvertResponse noteContent filename), n') ->
  exists body s source pre post,
    json request = Normal body
    /\ field body (lit "text") = Some (JString s)
    /\ s = pre ++ trim s ++ post
    /\ forallb isWhiteSpace pre = true
    /\ forallb isWhiteSpace post = true
    /\ trim s <> []
    /\ noteContent
       = frontmatter_block (iso_date (clock host n)) source
         ++ newline ++ newline ++ trim s ++ newline.
Proof.
  intros Hc.
  destruct (handleConvert_success_inv host _ _ _ _ _ Hc)
    as (body & s & src & Hj & (Hf & Hs & Ht) & _ & Hn & _ & _).
  destruct (trim_decompose s) as (pre & post & Hd & Hpre & Hpost).
  exists body, s, src, pre, post. repeat split; auto.
Qed.

Lemma note_body_is_text_without_margins_witness :
  exists pre post,
    lit "  hi  there " = pre ++ lit "hi  there" ++ post
    /\ forallb isWhiteSpace pre = true /\ forallb isWhiteSpace post = true.
Proof.
  destruct (note_body_is_text_without_margins sample_host
              (post (text_only (lit "  hi  there "))) 0%nat _ _ _ eq_refl)
    as (body & s & source & pre & post & Hj & Hf & Hs & Hpre & Hpost & _).
  injection Hj as <-. vm_compute in Hf. injection Hf as <-.
  exists pre, post. split; [|split; assumption].
  etransitivity; [exact Hs|]. reflexivity.
Defined.

(** X3.  The convert operation sees the text only through its trimmed form:
    two requests with the same [source] whose texts trim to the same
    non-empty string get the same result, so white space around the text
    changes nothing in the answer. *)
Theorem convert_depends_on_trimmed_text (host : Host) (r1 r2 : Request)
  (b1 b2 : JsValue) (s1 s2 : js_string) (n : nat) :
  json r1 = Normal b1 -> json r2 = Normal b2 ->
  field b1 (lit "text") = Some (JString s1) ->
  field b2 (lit "text") = Some (JString s2) ->
  field b1 (lit "source") = field b2 (lit "source") ->
  trim s1 = trim s2 -> trim s1 <> [] ->
  handleConvert host r1 n = handleConvert host r2 n.
Proof.
  intros Hj1 Hj2 Hf1 Hf2 Hsrc Ht Hne.
  assert (Ha1 : accepted_text b1 s1).
  { split; [exact Hf1|]. split; [|exact Hne]. intros ->. apply Hne.
    reflexivity. }
  assert (Ha2 : accepted_text b2 s2).
  { split; [exact Hf2|]. rewrite <- Ht. split; [|exact Hne].
    intros ->. apply Hne. rewrite Ht. reflexivity. }
  rewrite (handleConvert_accepted host r1 b1 s1 n Hj1 Ha1).
  rewrite (handleConvert_accepted host r2 b2 s2 n Hj2 Ha2).
  rewrite Hsrc, Ht. reflexivity.
Qed.

Lemma convert_depends_on_trimmed_text_witness :
  handleConvert sample_host (post (text_only (lit "  hi there  "))) 0%nat
  = handleConvert sample_host (post (text_only (lit "hi there"))) 0%nat.
Proof.
  apply (convert_depends_on_trimmed_text sample_host
           (post (text_only (lit "  hi there  ")))
           (post (text_only (lit "hi there")))
           (text_only (lit "  hi there  ")) (text_only (lit "hi there"))
           (lit "  hi there  ") (lit "hi there") 0%nat);
    try reflexivity.
  vm_compute. discriminate.
Defined.

(** X4.  A request that is rejected before any note is written (its body
    does not parse, or its text is not accepted) takes no reading of the
    clock, and the error it gets does not depend on the time, the time
    zone or the number rendering of the host. *)
Theorem rejection_reads_no_clock (h1 h2 : Host) (request : Request)
  (n1 n2 : nat) :
  TypeError_message h1 = TypeError_message h2 ->
  (forall body s, json request = Normal body -> ~ accepted_text body s) ->
  exists error,
    handleConvert h1 request n1 = (Normal (ErrorResponse error), n1)
    /\ handleConvert h2 request n2 = (Normal (ErrorResponse error), n2).
Proof.
  intros Hmsg Hrej.
  destruct (json request) as [body|e] eqn:Hj.
  2:{ exists (caught_message e).
      split; apply handleConvert_throwing_body; exact Hj. }
  destruct (body_cases body)
    as [-> | [[Hb Ht] | [(s & Hf & Hs & Ht) | (s & Ha)]]].
  - exists (TypeError_message h1 (PropertyOfNull (lit "text"))).
    split; [|rewrite Hmsg]; apply handleConvert_null_body; exact Hj.
  - exists missing_text.
    split; apply (handleConvert_missing_text _ request body); auto.
  - exists (lit "Text cannot be empty").
    split; apply (handleConvert_blank_text _ request body s); auto.
  - exfalso. exact (Hrej body s eq_refl Ha).
Qed.

Lemma rejection_reads_no_clock_witness :
  exists error,
    handleConvert sample_host (post (text_only (lit "   "))) 0%nat
    = (Normal (ErrorResponse error), 0%nat)
    /\ handleConvert late_host (post (text_only (lit "   "))) 7%nat
       = (Normal (ErrorResponse error), 7%nat).
Proof.
  apply (rejection_reads_no_clock sample_host late_host
           (post (text_only (lit "   "))) 0%nat 7%nat eq_refl).
  intros body s Hj (Hf & _ & Ht). injection Hj as <-.
  vm_compute in Hf. injection Hf as <-. apply Ht. reflexivity.
Defined.

(** X5.  The exact condition of success: a [POST /convert] request is
    answered 200 if and only if its body parses, its text is accepted, and
    its source (or the default when the source is absent or falsy) is a
    value whose conversion to a string does not throw. *)
Theorem convert_succeeds_iff (host : Host) (request : Request) (n : nat) :
  method request = lit "POST" -> pathname request = lit "/convert" ->
  (exists response n',
      handler host request n = (Normal response, n')
      /\ status response = 200)
  <-> (exists body s,
          json request = Normal body /\ accepted_text body s
          /\ convertible
               (or_else (field body (lit "source")) default_source) = true).
Proof.
  intros Hm Hp. split.
  - intros (response & n' & Hh & Hs).
    destruct (handler_convert host request n Hm Hp) as (r & k & Hc & Hh').
    rewrite Hh in Hh'. injection Hh' as -> ->. cbn [status] in Hs.
    destruct r as [noteContent filename | error]; [|discriminate Hs].
    destruct (handleConvert_success_inv host _ _ _ _ _ Hc)
      as (body & s & src & Hj & Ha & Hsrc & _).
    exists body, s. split; [exact Hj|]. split; [exact Ha|].
    destruct (ToString_convertible host
                (or_else (field body (lit "source")) default_source))
      as [s' Hs'].
    destruct (convertible _); [reflexivity|].
    rewrite Hsrc in Hs'. discriminate.
  - intros (body & s & Hj & Ha & Hv).
    pose proof (handleConvert_accepted host request body s n Hj Ha) as Hc.
    destruct (ToString_convertible host
                (or_else (field body (lit "source")) default_source))
      as [src Hs].
    rewrite Hv in Hs. rewrite Hs in Hc.
    eexists. eexists. split;
      [apply handler_success; [exact Hm | exact Hp | exact Hc] | reflexivity].
Qed.

Lemma convert_succeeds_iff_witness :
  exists response n',
    handler sample_host
      (post (text_and_source (lit "hello") (JArray [JNull; JBool true])))
      0%nat
    = (Normal response, n')
    /\ status response = 200.
Proof.
  apply (proj2 (convert_succeeds_iff sample_host
                  (post (text_and_source (lit "hello")
                           (JArray [JNull; JBool true])))
                  0%nat eq_refl eq_refl)).
  exists (text_and_source (lit "hello") (JArray [JNull; JBool true])),
    (lit "hello").
  split; [reflexivity|]. split; [|reflexivity].
  repeat split; discriminate.
Defined.

(** X6.  Only [POST /convert] looks at the body: two requests with the same
    method and path that are not [POST /convert] get the same response in
    the same state, whatever their bodies, so a body that does not parse
    cannot turn a health check, a preflight or a 404 into an error. *)
Theorem other_routes_ignore_body (host : Host) (r1 r2 : Request) (n : nat) :
  method r1 = method r2 -> pathname r1 = pathname r2 ->
  ~ (method r1 = lit "POST" /\ pathname r1 = lit "/convert") ->
  handler host r1 n = handler host r2 n.
Proof.
  intros Hm Hp Hne. unfold handler. cbv zeta. rewrite <- Hm, <- Hp.
  destruct (eqb (method r1) (lit "OPTIONS")); [reflexivity|].
  destruct (eqb (pathname r1) (lit "/") && eqb (method r1) (lit "GET"));
    [reflexivity|].
  destruct (eqb (pathname r1) (lit "/convert")
            && eqb (method r1) (lit "POST")) eqn:E; [|reflexivity].
  apply andb_true_iff in E. destruct E as [E1 E2].
  apply eqb_eq in E1, E2. tauto.
Qed.

Lemma other_routes_ignore_body_witness :
  handler sample_host
    {| method := lit "GET"; pathname := lit "/";
       json := Throw (ErrorObject (lit "Unexpected end of JSON input")) |}
    0%nat
  = handler sample_host
      {| method := lit "GET"; pathname := lit "/";
         json := Normal (text_only (lit "hello")) |} 0%nat.
Proof.
  apply other_routes_ignore_body; try reflexivity.
  intros [H _]. discriminate H.
Defined.

(** ** The time in the file name *)

Lemma twelve_hour_clock (d : Date) :
  getHours d
  = Z.rem (hour12 d) 12 + (if eqb (meridiem d) (lit "pm") then 12 else 0)
  /\ (getHours d = 0 <-> hour12 d = 12 /\ meridiem d = lit "am")
  /\ (getHours d = 12 <-> hour12 d = 12 /\ meridiem d = lit "pm").
Proof.
  unfold hour12, meridiem, getHours.
  pose proof (HourFromTime_bounds (LocalTime d)) as H.
  set (h := HourFromTime (LocalTime d)) in *.
  destruct (12 <=? h) eqn:Ep; [apply Z.leb_le in Ep | apply Z.leb_gt in Ep];
    destruct (Z.rem h 12 =? 0) eqn:Ez;
    [apply Z.eqb_eq in Ez | apply Z.eqb_neq in Ez
    | apply Z.eqb_eq in Ez | apply Z.eqb_neq in Ez];
    (split; [|split; split]);
    try (intros [? ?]); try intros ?; try split;
    try reflexivity; try discriminate;
    try (change (eqb (lit "pm") (lit "pm")) with true);
    try (change (eqb (lit "am") (lit "pm")) with false);
    try (change (Z.rem 12 12) with 0);
    revert Ez; Z.to_euclidean_division_equations; lia.
Qed.

(** X7.  The 12-hour time of a timestamp loses nothing.  The timestamp is
    the local date, a space, the hour shown, a hyphen, the minutes and the
    suffix; the hour of the day is the hour shown, counted modulo 12, plus
    12 when the suffix is [pm]; midnight is shown as [12] with [am] and
    noon as [12] with [pm]. *)
Theorem twelve_hour_clock_round_trip (host : Host) (n : nat) :
  exists shown suffix,
    generateTimestamp host n
    = (Normal (local_date (date_at host n) ++ lit " "
               ++ String_of_int shown ++ lit "-"
               ++ pad 2 (getMinutes (date_at host n)) ++ suffix), S n)
    /\ 1 <= shown <= 12
    /\ (suffix = lit "am" \/ suffix = lit "pm")
    /\ getHours (date_at host n)
       = Z.rem shown 12 + (if eqb suffix (lit "pm") then 12 else 0)
    /\ (getHours (date_at host n) = 0
        <-> shown = 12 /\ suffix = lit "am")
    /\ (getHours (date_at host n) = 12
        <-> shown = 12 /\ suffix = lit "pm").
Proof.
  exists (hour12 (date_at host n)), (meridiem (date_at host n)).
  split; [apply generateTimestamp_eq|].
  split; [apply hour12_bounds|]. split; [apply meridiem_cases|].
  apply twelve_hour_clock.
Qed.

Lemma same_minute_fields (t1 t2 : Z) :
  t1 / msPerMinute = t2 / msPerMinute ->
  Day t1 = Day t2 /\ HourFromTime t1 = HourFromTime t2
  /\ MinFromTime t1 = MinFromTime t2.
Proof.
  unfold Day, HourFromTime, MinFromTime, msPerDay, msPerHour, msPerMinute.
  intros H.
  change 86400000 with (60000 * 1440). change 3600000 with (60000 * 60).
  rewrite <- !Z.div_div by lia. rewrite H. auto.
Qed.

Lemma same_minute_same_name (d1 d2 : Date) :
  local_minute d1 = local_minute d2 -> filename_at d1 = filename_at d2.
Proof.
  unfold local_minute. intros H.
  destruct (same_minute_fields _ _ H) as (Hd & Hh & Hm).
  unfold filename_at, local_date, hour12, meridiem, getFullYear, getMonth,
    getDate, getHours, getMinutes, YearFromTime, MonthFromTime, DateFromTime.
  cbv zeta. rewrite Hd, Hh, Hm. reflexivity.
Qed.

(** X8.  File names are told apart by the minute only: two successful
    converts whose file-name readings of the clock fall in the same minute
    of local time get the same file name, whatever the requests. *)
Theorem same_minute_same_filename (host : Host) (r1 r2 : Request)
  (n1 n2 n1' n2' : nat) (note1 note2 filename1 filename2 : js_string) :
  handleConvert host r1 n1 = (Normal (ConvertResponse note1 filename1), n1') ->
  handleConvert host r2 n2 = (Normal (ConvertResponse note2 filename2), n2') ->
  local_minute (date_at host (S n1)) = local_minute (date_at host (S n2)) ->
  filename1 = filename2.
Proof.
  intros H1 H2 Hm.
  destruct (handleConvert_success_inv host _ _ _ _ _ H1)
    as (_ & _ & _ & _ & _ & _ & _ & -> & _).
  destruct (handleConvert_success_inv host _ _ _ _ _ H2)
    as (_ & _ & _ & _ & _ & _ & _ & -> & _).
  apply same_minute_same_name. exact Hm.
Qed.

Lemma same_minute_same_filename_witness :
  exists note1 note2 filename n1' n2',
    handleConvert ticking_host (post (text_only (lit "first"))) 0%nat
    = (Normal (ConvertResponse note1 filename), n1')
    /\ handleConvert ticking_host
         (post (text_and_source (lit "second") (JString (lit "ios"))))
         10%nat
       = (Normal (ConvertResponse note2 filename), n2')
    /\ note1 <> note2.
Proof.
  do 5 eexists. split; [vm_compute; reflexivity|].
  assert (H2 : exists note2 filename2 n2',
             handleConvert ticking_host
               (post (text_and_source (lit "second") (JString (lit "ios"))))
               10%nat
             = (Normal (ConvertResponse note2 filename2), n2')).
  { do 3 eexists. vm_compute. reflexivity. }
  destruct H2 as (note2 & filename2 & n2' & H2).
  pose proof (same_minute_same_filename ticking_host
                (post (text_only (lit "first")))
                (post (text_and_source (lit "second") (JString (lit "ios"))))
                0%nat 10%nat _ _ _ _ _ _ eq_refl H2 eq_refl) as Hf.
  vm_compute in H2. injection H2 as <- <- <-.
  split; [reflexivity | discriminate].
Defined.

Lemma digits_are_filename_units (s : js_string) :
  forallb isDigit s = true -> forallb filename_unit s = true.
Proof.
  intros H. apply forallb_forall. intros x Hx.
  rewrite forallb_forall in H. unfold filename_unit. rewrite (H x Hx).
  reflexivity.
Qed.

Lemma String_of_int_units (n : Z) :
  forallb filename_unit (String_of_int n) = true.
Proof.
  unfold String_of_int. destruct (n <? 0).
  - rewrite forallb_app, (digits_are_filename_units _ (decimal_digits _ _)).
    reflexivity.
  - apply digits_are_filename_units, decimal_digits.
Qed.

Lemma pad_units (w : nat) (n : Z) : forallb filename_unit (pad w n) = true.
Proof.
  unfold pad, padStart. rewrite forallb_app, String_of_int_units.
  rewrite andb_true_r. apply forallb_forall. intros x Hx.
  apply repeat_spec in Hx. subst x. reflexivity.
Qed.

Lemma filename_at_units (d : Date) :
  forallb filename_unit (filename_at d) = true.
Proof.
  unfold filename_at, local_date, meridiem.
  rewrite !forallb_app, !String_of_int_units, !pad_units.
  destruct (12 <=? getHours d); reflexivity.
Qed.

(** X9.  A file name is safe to use as a file name at every time of the
    clock: it is written with the marker, spaces, hyphens, digits and the
    letters [a], [m], [p] only, so it has no slash, backslash, colon, dot,
    line break or NUL in it. *)
Theorem filename_is_path_safe (host : Host) (request : Request) (n n' : nat)
  (noteContent filename : js_string) :
  handleConvert host request n
  = (Normal (ConvertResponse noteContent filename), n') ->
  forallb filename_unit filename = true
  /\ (forall c, In c [47; 92; 58; 46; 10; 13; 0]%N -> ~ In c filename).
Proof.
  intros Hc.
  destruct (handleConvert_success_inv host _ _ _ _ _ Hc)
    as (_ & _ & _ & _ & _ & _ & _ & -> & _).
  pose proof (filename_at_units (date_at host (S n))) as Hu.
  split; [exact Hu|].
  intros c Hc' Hin. rewrite forallb_forall in Hu. specialize (Hu c Hin).
  simpl in Hc'.
  repeat (destruct Hc' as [<-|Hc']; [discriminate Hu|]). exact Hc'.
Qed.

Lemma filename_is_path_safe_witness :
  exists noteContent filename n',
    handleConvert late_host (post (text_only (lit "a/b:c"))) 0%nat
    = (Normal (ConvertResponse noteContent filename), n')
    /\ ~ In 47%N filename /\ ~ In 58%N filename.
Proof.
  do 3 eexists. split; [vm_compute; reflexivity|].
  destruct (filename_is_path_safe late_host (post (text_only (lit "a/b:c")))
              0%nat _ _ _ eq_refl) as [_ H].
  split; apply H; simpl; tauto.
Defined.

(** ** Lines of the frontmatter *)

Lemma occurrences_app (c : code_unit) (a b : js_string) :
  occurrences c (a ++ b) = (occurrences c a + occurrences c b)%nat.
Proof. induction a as [|x a IH]; simpl; [reflexivity | rewrite IH; lia]. Qed.

Lemma occurrences_absent (c : code_unit) (s : js_string) :
  ~ In c s -> occurrences c s = O.
Proof.
  induction s as [|x s IH]; simpl; [reflexivity|]. intros H.
  destruct (N.eqb x c) eqn:E; [apply N.eqb_eq in E; tauto|].
  apply IH. tauto.
Qed.

Lemma iso_date_one_line (t : Z) : occurrences 10%N (iso_date t) = O.
Proof.
  apply occurrences_absent. intros H. apply iso_date_chars in H.
  destruct H as [H|[H|H]]; discriminate.
Qed.

(** X10.  The frontmatter has one line break more for every line break in
    the rendered source: eight of its own, so nine lines when the source is
    a single line, and a source of several lines adds lines of its own
    between [source:] and [template_version:]. *)
Theorem frontmatter_line_breaks (host : Host) (source : JsValue) (n n' : nat)
  (frontmatter : js_string) :
  generateFrontmatter host source n = (Normal frontmatter, n') ->
  exists rendered,
    ToString host source = Normal rendered
    /\ n' = S n
    /\ occurrences 10%N frontmatter = (8 + occurrences 10%N rendered)%nat.
Proof.
  rewrite generateFrontmatter_eq.
  destruct (ToString host source) as [rendered|e]; [|discriminate].
  intros H. injection H as <- <-. exists rendered.
  split; [reflexivity|]. split; [reflexivity|].
  unfold frontmatter_block. rewrite !occurrences_app, iso_date_one_line.
  unfold newline, dquote, lit. simpl. lia.
Qed.

Lemma frontmatter_line_breaks_witness :
  exists frontmatter n',
    generateFrontmatter sample_host
      (JString (lit "mic" ++ newline ++ lit "type: forged")) 0%nat
    = (Normal frontmatter, n')
    /\ occurrences 10%N frontmatter = 9%nat.
Proof.
  do 2 eexists. split; [vm_compute; reflexivity|].
  destruct (frontmatter_line_breaks sample_host
              (JString (lit "mic" ++ newline ++ lit "type: forged")) 0%nat
              _ _ eq_refl) as (rendered & Hr & _ & Hn).
  injection Hr as <-. etransitivity; [exact Hn|]. reflexivity.
Defined.

(** ** The two dates on a host without zone offset *)

Lemma iso_year_unpadded (y : Z) :
  1000 <= y <= 9999 -> iso_year y = String_of_int y.
Proof.
  intros H. unfold iso_year.
  replace ((0 <=? y) && (y <=? 9999)) with true
    by (symmetry; apply andb_true_iff; split; apply Z.leb_le; lia).
  destruct (String_of_int_digits 4 y ltac:(lia)) as [Hl _].
  { change (10 ^ Z.of_nat (4 - 1)) with 1000.
    change (10 ^ Z.of_nat 4) with 10000. lia. }
  unfold pad, padStart. rewrite Hl. reflexivity.
Qed.

(** X13.  The two dates of a response differ by the zone offset alone: on
    a host whose local time is UTC, when both readings of the clock are the
    same instant of a year from 1000 to 9999, the date after [created:] is
    the date in the file name. *)
Theorem dates_agree_without_offset (host : Host) (request : Request)
  (n n' : nat) (noteContent filename : js_string) :
  handleConvert host request n
  = (Normal (ConvertResponse noteContent filename), n') ->
  clock host (S n) = clock host n ->
  LocalTZA host (clock host n) = 0 ->
  1000 <= YearFromTime (clock host n) <= 9999 ->
  exists date source text time,
    noteContent
    = frontmatter_block date source ++ newline ++ newline ++ text ++ newline
    /\ filename = microphone ++ lit " " ++ date ++ lit " " ++ time
    /\ date = iso_date (clock host n).
Proof.
  intros Hc Hclock Hz Hy.
  destruct (handleConvert_success_inv host _ _ _ _ _ Hc)
    as (body & s & src & _ & _ & _ & Hn & Hf & _).
  exists (iso_date (clock host n)), src, (trim s).
  eexists. split; [exact Hn|]. split; [|reflexivity].
  rewrite Hf. unfold filename_at. do 2 f_equal.
  assert (Hd : local_date (date_at host (S n)) = iso_date (clock host n)).
  { unfold local_date, iso_date, getFullYear, getMonth, getDate, LocalTime,
      date_at. cbn [time_value local_tza].
    rewrite Hclock, Hz, Z.add_0_r, (iso_year_unpadded _ Hy). reflexivity. }
  rewrite Hd. reflexivity.
Qed.

Lemma dates_agree_without_offset_witness :
  exists noteContent filename n',
    handleConvert utc_host (post (text_only (lit "hello"))) 0%nat
    = (Normal (ConvertResponse noteContent filename), n')
    /\ includes (lit "created: 2026-01-28") noteContent = true
    /\ includes (lit " 2026-01-28 1-30pm") filename = true.
Proof.
  do 3 eexists. split; [vm_compute; reflexivity|].
  assert (Hy : 1000 <= YearFromTime (clock utc_host 0) <= 9999)
    by (vm_compute; split; discriminate).
  destruct (dates_agree_without_offset utc_host
              (post (text_only (lit "hello"))) 0%nat _ _ _
              eq_refl eq_refl eq_refl Hy)
    as (date & source & text & time & Hn & Hf & Hd).
  split; vm_compute; reflexivity.
Defined.

(** ** The default repository name of the setup script *)


Lemma split_no_separator (sep : code_unit) (s : js_string) :
  ~ In sep s -> split sep s = [s].
Proof.
  induction s as [|c s IH]; simpl; [reflexivity|]. intros H.
  destruct (N.eqb c sep) eqn:E; [apply N.eqb_eq in E; tauto|].
  rewrite IH by tauto. reflexivity.
Qed.

Lemma split_at_separator (sep : code_unit) (a b : js_string) :
  ~ In sep a -> split sep (a ++ sep :: b) = a :: split sep b.
Proof.
  induction a as [|c a IH]; simpl; intros H.
  - rewrite N.eqb_refl. reflexivity.
  - destruct (N.eqb c sep) eqn:E; [apply N.eqb_eq in E; tauto|].
    rewrite IH by tauto. reflexivity.
Qed.



(** X12.  The default repository name undoes the scoping of a package name:
    for a scope and a non-empty name without slashes, the default for
    [@scope/name] is [name]. *)
Theorem default_repo_name_of_scoped (scope name : js_string) :
  ~ In 47%N scope -> ~ In 47%N name -> name <> [] ->
  defaultRepoName (lit "@" ++ scope ++ lit "/" ++ name) = name.
Proof.
  intros Hs Hn Hne.
  assert (E : lit "@" ++ scope ++ lit "/" ++ name
              = (64%N :: scope) ++ 47%N :: name) by reflexivity.
  rewrite E. unfold defaultRepoName.
  replace (startsWith (lit "@") ((64%N :: scope) ++ 47%N :: name)) with true
    by reflexivity.
  assert (Hs' : ~ In 47%N (64%N :: scope)).
  { simpl. intros [H|H]; [discriminate | tauto]. }
  pose proof (split_at_separator 47%N _ name Hs') as Hsplit.
  rewrite (split_no_separator 47%N name Hn) in Hsplit.
  apply (f_equal (fun l => match nth_error l 1 with
                           | Some segment =>
                               if eqb segment [] then lit "my-lib"
                               else segment
                           | None => lit "my-lib"
                           end)) in Hsplit.
  etransitivity; [exact Hsplit|].
  cbn [nth_error]. apply eqb_neq in Hne. rewrite Hne. reflexivity.
Qed.

Lemma default_repo_name_of_scoped_witness :
  defaultRepoName (lit "@nathanvale/voice-inbox-server")
  = lit "voice-inbox-server".
Proof.
  apply (default_repo_name_of_scoped (lit "nathanvale")
           (lit "voice-inbox-server")).
  - vm_compute. intuition discriminate.
  - vm_compute. intuition discriminate.
  - discriminate.
Defined.
